(** * The clip endpoint of backend/src/index.ts

    A shallow embedding of the [/api/clip] request handler: the yt-dlp
    download step with its destination detection and directory-search
    fallback, the ffmpeg remux step with its post-condition check, the
    [try]/[catch]/[finally] skeleton of the handler and its cleanup block.

    Conventions of the model.
    - JavaScript strings are [string]s, read as sequences of code units
      below 256; in that range the line terminators are LF and CR and the
      white space removed by [trim] is TAB, LF, VT, FF, CR, SP and NBSP.
    - Paths are POSIX paths.  [uploadsDir] is the normalised directory
      computed at start-up; joining it with one plain segment is
      concatenation with a separator.
    - The file system is an ordered list of entries (full path, node); the
      order is the order in which [readdirSync] reports them.
    - A child process is the list of things it does that the handler can
      observe: chunks on stdout and stderr, changes of the file system, and
      its ['error'] and ['close'] events.  A list with neither of the last
      two is a process that never finishes.
    - A path names an entry by its exact spelling, and one request is
      followed on its own: nothing but the handler and the two processes
      it spawns touches the file system.
    - Console output is not modelled. *)

From Stdlib Require Import String Ascii List ZArith NArith Bool Lia.
From Stdlib Require Import DecimalString.
From Stdlib Require DecimalPos DecimalN.
Import ListNotations.
Open Scope list_scope.
Open Scope string_scope.

(** ** Strings *)

Module Str.

(** [s.startsWith(p)] *)
Definition startsWith (s p : string) : bool := String.prefix p s.

(** Code units that [.] of a regular expression does not match. *)
Definition is_line_terminator (c : ascii) : bool :=
  let n := nat_of_ascii c in Nat.eqb n 10 || Nat.eqb n 13.

(** Code units removed by [String.prototype.trim]. *)
Definition is_white_space (c : ascii) : bool :=
  let n := nat_of_ascii c in
  (Nat.leb 9 n && Nat.leb n 13) || Nat.eqb n 32 || Nat.eqb n 160.

Fixpoint trimStart (s : string) : string :=
  match s with
  | EmptyString => EmptyString
  | String c r => if is_white_space c then trimStart r else s
  end.

(** Drops the trailing white space: a suffix that is white space only
    becomes empty. *)
Fixpoint trimEnd (s : string) : string :=
  match s with
  | EmptyString => EmptyString
  | String c r =>
      match trimEnd r with
      | EmptyString => if is_white_space c then EmptyString else String c EmptyString
      | r' => String c r'
      end
  end.

Definition trim (s : string) : string := trimEnd (trimStart s).

(** The longest prefix without a line terminator: what a greedy capture
    of any characters takes from the position it starts at. *)
Fixpoint take_line (s : string) : string :=
  match s with
  | EmptyString => EmptyString
  | String c r => if is_line_terminator c then EmptyString else String c (take_line r)
  end.

(** [strip_prefix p s]: the rest of [s] after the literal [p], if [s]
    starts with it. *)
Fixpoint strip_prefix (p s : string) : option string :=
  match p with
  | EmptyString => Some s
  | String a p' =>
      match s with
      | EmptyString => None
      | String b s' => if Ascii.eqb a b then strip_prefix p' s' else None
      end
  end.

(** Truthiness of a string value. *)
Definition nonempty (s : string) : bool :=
  match s with EmptyString => false | String _ _ => true end.

(** Template-literal rendering of a non-negative integer. *)
Definition of_N (n : N) : string := NilZero.string_of_uint (N.to_uint n).

(** Template-literal rendering of an integer. *)
Definition of_Z (z : Z) : string := NilZero.string_of_int (Z.to_int z).

Fixpoint rev_acc (s acc : string) : string :=
  match s with
  | EmptyString => acc
  | String c r => rev_acc r (String c acc)
  end.

Definition rev (s : string) : string := rev_acc s EmptyString.

Definition is_slash (c : ascii) : bool := Ascii.eqb c "/"%char.

Fixpoint drop_slashes (s : string) : string :=
  match s with
  | EmptyString => EmptyString
  | String c r => if is_slash c then drop_slashes r else s
  end.

Fixpoint take_segment (s : string) : string :=
  match s with
  | EmptyString => EmptyString
  | String c r => if is_slash c then EmptyString else String c (take_segment r)
  end.

Fixpoint has_slash (s : string) : bool :=
  match s with
  | EmptyString => false
  | String c r => is_slash c || has_slash r
  end.

End Str.

(** ** Paths *)

Module Path.

(** [path.basename(p)]: scanning from the end, trailing separators are
    skipped and the segment before them, up to the previous separator, is
    returned. *)
Definition basename (p : string) : string :=
  Str.rev (Str.take_segment (Str.drop_slashes (Str.rev p))).

(** [path.join(dir, name)] for a normalised [dir] and a plain segment
    [name]. *)
Definition join (dir name : string) : string := dir ++ "/" ++ name.

End Path.

(** ** File system *)

Inductive node : Type :=
| File (size : N)
| Dir (size : N).

Definition node_size (n : node) : N :=
  match n with File s => s | Dir s => s end.

(** [entries]: the existing paths in directory order.  [undeletable]: the
    paths whose removal the operating system refuses (permissions, busy
    files). *)
Record filesystem : Type := mkFs {
  entries : list (string * node);
  undeletable : list string
}.

Module Fs.

Fixpoint lookup (p : string) (l : list (string * node)) : option node :=
  match l with
  | [] => None
  | (q, n) :: r => if String.eqb q p then Some n else lookup p r
  end.

(** [fs.existsSync(p)] *)
Definition existsSync (fs : filesystem) (p : string) : bool :=
  match lookup p (entries fs) with Some _ => true | None => false end.

(** [fs.statSync(p).size]; [None] when the call throws. *)
Definition stat_size (fs : filesystem) (p : string) : option N :=
  option_map node_size (lookup p (entries fs)).

(** The entry name of [p] inside [dir], when [p] lies directly in it. *)
Definition child_name (dir p : string) : option string :=
  match Str.strip_prefix (dir ++ "/") p with
  | Some name => if Str.nonempty name && negb (Str.has_slash name) then Some name else None
  | None => None
  end.

Fixpoint children (dir : string) (l : list (string * node)) : list string :=
  match l with
  | [] => []
  | (p, _) :: r =>
      match child_name dir p with
      | Some name => name :: children dir r
      | None => children dir r
      end
  end.

(** [fs.readdirSync(dir)]; [None] when it throws because [dir] is not an
    existing directory. *)
Definition readdirSync (fs : filesystem) (dir : string) : option (list string) :=
  match lookup dir (entries fs) with
  | Some (Dir _) => Some (children dir (entries fs))
  | _ => None
  end.

Fixpoint remove (p : string) (l : list (string * node)) : list (string * node) :=
  match l with
  | [] => []
  | (q, n) :: r => if String.eqb q p then remove p r else (q, n) :: remove p r
  end.

Fixpoint put (p : string) (n : node) (l : list (string * node)) : list (string * node) :=
  match l with
  | [] => [(p, n)]
  | (q, m) :: r => if String.eqb q p then (p, n) :: r else (q, m) :: put p n r
  end.

Definition mem (p : string) (l : list string) : bool :=
  existsb (String.eqb p) l.

(** [fs.unlink(p)]: succeeds on an existing regular file that the
    operating system lets go; otherwise fails and changes nothing. *)
Definition unlink (fs : filesystem) (p : string) : option filesystem :=
  match lookup p (entries fs) with
  | Some (File _) =>
      if mem p (undeletable fs) then None
      else Some (mkFs (remove p (entries fs)) (undeletable fs))
  | _ => None
  end.

(** The message of the error a failed [fs.unlink(p)] rejects with. *)
Definition unlink_error (fs : filesystem) (p : string) : string :=
  match lookup p (entries fs) with
  | None => "ENOENT: no such file or directory, unlink '" ++ p ++ "'"
  | Some (Dir _) => "EISDIR: illegal operation on a directory, unlink '" ++ p ++ "'"
  | Some (File _) => "EACCES: permission denied, unlink '" ++ p ++ "'"
  end.

(** A child process writes, or removes, a path. *)
Definition write (fs : filesystem) (p : string) (n : node) : filesystem :=
  mkFs (put p n (entries fs)) (undeletable fs).

Definition erase (fs : filesystem) (p : string) : filesystem :=
  mkFs (remove p (entries fs)) (undeletable fs).

End Fs.

(** ** Child processes and promises *)

(** What a spawned process does, as far as the handler can see it.  The
    exit code of ['close'] is [None] when the process was ended by a
    signal.  The handler goes on as soon as the promise that waits for the
    process settles, so what a process does after its first ['error'] or
    ['close'] is not looked at. *)
Inductive event : Type :=
| StdoutData (chunk : string)
| StderrData (chunk : string)
| Writes (p : string) (n : node)
| Removes (p : string)
| ErrorEvent (message : string)
| CloseEvent (code : option Z).

Inductive promise (A : Type) : Type :=
| Pending
| Resolved (value : A)
| Rejected (message : string).

Arguments Pending {A}.
Arguments Resolved {A} value.
Arguments Rejected {A} message.

(** Rendering of the exit code inside a template literal. *)
Definition show_code (code : option Z) : string :=
  match code with
  | Some z => Str.of_Z z
  | None => "null"
  end.

(** [code === 0] *)
Definition code_is_zero (code : option Z) : bool :=
  match code with
  | Some z => Z.eqb z 0
  | None => false
  end.

(** ** Step 1: the download (runYtDlpDownload) *)

(** The mutable variables of one run of [runYtDlpDownload]. *)
Record fetcher : Type := mkFetcher {
  detectedPath : option string;
  processStderr : string;
  processStdout : string
}.

Definition fetcher_init : fetcher := mkFetcher None "" "".

(** The literal part of the destination pattern, as the source spells it. *)
Definition destination_literal : string := "[downlaod] Destination: ".

(** [output.match(/\[downlaod\] Destination: (.+)/)]: the first capture
    group of the leftmost match.  At a position the literal must be
    followed by at least one character that is not a line terminator; the
    group then runs to the end of the line. *)
Fixpoint match_destination (output : string) : option string :=
  let here :=
    match Str.strip_prefix destination_literal output with
    | Some rest =>
        match Str.take_line rest with
        | EmptyString => None
        | cap => Some cap
        end
    | None => None
    end in
  match here with
  | Some cap => Some cap
  | None =>
      match output with
      | EmptyString => None
      | String _ r => match_destination r
      end
  end.

(** The listener on [ytDlp.stdout]. *)
Definition on_stdout (outputPathBase output : string) (st : fetcher) : fetcher :=
  let st' := mkFetcher (detectedPath st) (processStderr st) (processStdout st ++ output) in
  match match_destination output with
  | Some cap =>
      if Str.nonempty cap then
        let filePath := Str.trim cap in
        if Str.startsWith filePath outputPathBase
        then mkFetcher (Some filePath) (processStderr st') (processStdout st')
        else st'
      else st'
  | None => st'
  end.

(** The listener on [ytDlp.stderr]. *)
Definition on_stderr (data : string) (st : fetcher) : fetcher :=
  mkFetcher (detectedPath st) (processStderr st ++ data) (processStdout st).

(** [detectedPath && fs.existsSync(detectedPath)] *)
Definition detected_exists (fs : filesystem) (st : fetcher) : option string :=
  match detectedPath st with
  | Some p => if Str.nonempty p && Fs.existsSync fs p then Some p else None
  | None => None
  end.

Definition silent_failure_message (stderr : string) : string :=
  "yt-dlp (muxed) indicated success, but no output file was found. Stderr: " ++ stderr.

Definition download_failed_message (code : option Z) (stderr : string) : string :=
  "yt-dlp download (muxed) failed with code " ++ show_code code ++ ". Stderr: " ++ stderr.

Definition download_spawn_message (message : string) : string :=
  "Failed to start yt-dlp (muxed): " ++ message.

Section Fetcher.

(** [path.join(__dirname, '../uploads')] *)
Variable uploadsDir : string.

(** The [try] block that searches the uploads directory: the path it
    resolves to, or [None] when nothing is found or the listing throws. *)
Definition search_uploads (fs : filesystem) (outputPathBase : string) : option string :=
  match Fs.readdirSync fs uploadsDir with
  | Some files =>
      match find (fun f => Str.startsWith f (Path.basename outputPathBase)) files with
      | Some foundFile =>
          if Str.nonempty foundFile then
            let fullPath := Path.join uploadsDir foundFile in
            if Fs.existsSync fs fullPath then Some fullPath else None
          else None
      | None => None
      end
  | None => None
  end.

(** The listener on ['close'] of the download process. *)
Definition ytdlp_on_close (outputPathBase : string) (st : fetcher)
  (code : option Z) (fs : filesystem) : promise string :=
  if code_is_zero code then
    match detected_exists fs st with
    | Some p => Resolved p
    | None =>
        match search_uploads fs outputPathBase with
        | Some fullPath => Resolved fullPath
        | None => Rejected (silent_failure_message (processStderr st))
        end
    end
  else Rejected (download_failed_message code (processStderr st)).

(** The download process runs until the promise settles: every event is
    given to its listener, the changes it makes to the file system are
    applied, and the first ['error'] or ['close'] settles the promise. *)
Fixpoint ytdlp_run (outputPathBase : string) (tr : list event) (st : fetcher)
  (fs : filesystem) : promise string * filesystem :=
  match tr with
  | [] => (Pending, fs)
  | StdoutData d :: tr' => ytdlp_run outputPathBase tr' (on_stdout outputPathBase d st) fs
  | StderrData d :: tr' => ytdlp_run outputPathBase tr' (on_stderr d st) fs
  | Writes p n :: tr' => ytdlp_run outputPathBase tr' st (Fs.write fs p n)
  | Removes p :: tr' => ytdlp_run outputPathBase tr' st (Fs.erase fs p)
  | ErrorEvent m :: _ => (Rejected (download_spawn_message m), fs)
  | CloseEvent code :: _ => (ytdlp_on_close outputPathBase st code fs, fs)
  end.

End Fetcher.

(** ** Step 2: the remux (ffmpeg) *)

Definition remux_empty_message (stderr : string) : string :=
  "FFmpeg remux failed: Output file missing or empty. Stderr: " ++ stderr.

Definition remux_failed_message (code : option Z) (stderr : string) : string :=
  "FFmpeg remux failed with code " ++ show_code code ++ ". Stderr: " ++ stderr.

Definition remux_spawn_message (message : string) : string :=
  "Failed to start ffmpeg: " ++ message.

(** [fs.existsSync(finalOutputPath) && fs.statSync(finalOutputPath).size > 0] *)
Definition final_nonempty (fs : filesystem) (finalOutputPath : string) : bool :=
  Fs.existsSync fs finalOutputPath &&
  match Fs.stat_size fs finalOutputPath with
  | Some size => N.ltb 0 size
  | None => false
  end.

(** The listener on ['close'] of the transcode process. *)
Definition ffmpeg_on_close (finalOutputPath ffmpegStderr : string)
  (code : option Z) (fs : filesystem) : promise unit :=
  if code_is_zero code then
    if final_nonempty fs finalOutputPath then Resolved tt
    else Rejected (remux_empty_message ffmpegStderr)
  else Rejected (remux_failed_message code ffmpegStderr).

(** The transcode process runs until the promise settles; only its stderr
    has a listener. *)
Fixpoint ffmpeg_run (finalOutputPath : string) (tr : list event)
  (ffmpegStderr : string) (fs : filesystem) : promise unit * filesystem :=
  match tr with
  | [] => (Pending, fs)
  | StdoutData _ :: tr' => ffmpeg_run finalOutputPath tr' ffmpegStderr fs
  | StderrData d :: tr' => ffmpeg_run finalOutputPath tr' (ffmpegStderr ++ d) fs
  | Writes p n :: tr' => ffmpeg_run finalOutputPath tr' ffmpegStderr (Fs.write fs p n)
  | Removes p :: tr' => ffmpeg_run finalOutputPath tr' ffmpegStderr (Fs.erase fs p)
  | ErrorEvent m :: _ => (Rejected (remux_spawn_message m), fs)
  | CloseEvent code :: _ => (ffmpeg_on_close finalOutputPath ffmpegStderr code fs, fs)
  end.

(** ** The handler *)

(** The JSON bodies the handler sends. *)
Inductive body : Type :=
| ErrorBody (error : string) (details : option string)
| SuccessBody (filePath message : string).

(** What the handler does to the outside, in the order it does it. *)
Inductive action : Type :=
| Spawn (command : string) (args : list string)
| Respond (status : N) (payload : body)
| Unlinked (p : string)
| UnlinkFailed (p : string)
| CleanupFinished.

(** The state one request works on: the file system, the handler's
    variable [tempMuxedPath] and the actions so far, oldest first. *)
Record world : Type := mkWorld {
  fs : filesystem;
  tempMuxedPath : option string;
  log : list action
}.

(** How a piece of the handler ends: normally, by throwing an [Error]
    with a message, or never (it awaits a promise that stays pending). *)
Inductive completion (A : Type) : Type :=
| Normal (a : A)
| Throw (message : string)
| Never.

Arguments Normal {A} a.
Arguments Throw {A} message.
Arguments Never {A}.

Definition M (A : Type) : Type := world -> completion A * world.

Definition ret {A : Type} (a : A) : M A := fun w => (Normal a, w).

Definition bind {A B : Type} (m : M A) (k : A -> M B) : M B :=
  fun w =>
    match m w with
    | (Normal a, w') => k a w'
    | (Throw e, w') => (Throw e, w')
    | (Never, w') => (Never, w')
    end.

Notation "x <- m ;; k" := (bind m (fun x => k))
  (at level 61, m at next level, right associativity).
Notation "m ;;; k" := (bind m (fun _ => k))
  (at level 61, right associativity).

Definition throw {A : Type} (message : string) : M A := fun w => (Throw message, w).

Definition emit (a : action) : M unit :=
  fun w => (Normal tt, mkWorld (fs w) (tempMuxedPath w) (log w ++ [a])%list).

(** [await p] *)
Definition await {A : Type} (p : promise A) : M A :=
  match p with
  | Resolved v => ret v
  | Rejected e => throw e
  | Pending => fun w => (Never, w)
  end.

(** [try { body } catch (error) { handler }] *)
Definition try_catch {A : Type} (body : M A) (handler : string -> M A) : M A :=
  fun w =>
    match body w with
    | (Throw e, w') => handler e w'
    | r => r
    end.

(** [try { m } finally { final }]: [final] runs however [m] ends, unless
    control never comes back from it; a throw of [final] replaces the
    result of [m].  A [try] with both a [catch] and a [finally] is
    [finally (try_catch body handler) final]. *)
Definition finally {A : Type} (m : M A) (final : M unit) : M A :=
  fun w =>
    match m w with
    | (Never, w') => (Never, w')
    | (c, w') =>
        match final w' with
        | (Normal _, w'') => (c, w'')
        | (Throw e, w'') => (Throw e, w'')
        | (Never, w'') => (Never, w'')
        end
    end.

(** The request body after [express.json()], typed as the request of the
    endpoint is: each field is absent or a string. *)
Record request : Type := mkRequest {
  url : option string;
  startTime : option string;
  endTime : option string
}.

(** The value of a field if it is truthy. *)
Definition truthy (v : option string) : option string :=
  match v with
  | Some s => if Str.nonempty s then Some s else None
  | None => None
  end.

Definition ytdlp_args (url outputPathBase startTime endTime : string) : list string :=
  let outputPathTemplate := outputPathBase ++ ".%(ext)s" in
  let section := "*" ++ startTime ++ "-" ++ endTime in
  [ url;
    "-f"; "bestvideo+bestaudio/best";
    "--download-sections"; section;
    "-o"; outputPathTemplate;
    "--no-check-certificates";
    "--no-warnings";
    "--add-header"; "referer:youtube.com";
    "--add-header"; "user-agent:Mozilla/5.0";
    "--merge-output-format"; "mp4";
    "--verbose" ].

Definition ffmpeg_args (tempMuxedPath finalOutputPath : string) : list string :=
  [ "-i"; tempMuxedPath; "-c:v"; "copy"; "-c:a"; "copy"; "-y"; finalOutputPath ].

(** A child process runs against the file system of the world. *)
Definition run_process {A : Type}
  (run : filesystem -> promise A * filesystem) : M (promise A) :=
  fun w =>
    let (p, fs') := run (fs w) in
    (Normal p, mkWorld fs' (tempMuxedPath w) (log w)).

Section Handler.

(** [path.join(__dirname, '../uploads')] *)
Variable uploadsDir : string.

(** [await runYtDlpDownload(outputPathBase, startTime, endTime)]; the
    [catch] around the call logs and throws the same error again. *)
Definition runYtDlpDownload (url outputPathBase startTime endTime : string)
  (tr : list event) : M string :=
  emit (Spawn "yt-dlp" (ytdlp_args url outputPathBase startTime endTime)) ;;;
  p <- run_process (ytdlp_run uploadsDir outputPathBase tr fetcher_init) ;;
  await p.

Definition set_tempMuxedPath (p : string) : M unit :=
  fun w => (Normal tt, mkWorld (fs w) (Some p) (log w)).

(** [unlinkAsync(p)]: the promise it returns and the world once the
    operation is over. *)
Definition unlinkAsync (p : string) (w : world) : promise unit * world :=
  match Fs.unlink (fs w) p with
  | Some fs' => (Resolved tt, mkWorld fs' (tempMuxedPath w) (log w ++ [Unlinked p])%list)
  | None =>
      (Rejected (Fs.unlink_error (fs w) p),
       mkWorld (fs w) (tempMuxedPath w) (log w ++ [UnlinkFailed p])%list)
  end.

(** [promise.catch(handler)] *)
Definition catch {A : Type} (p : promise A) (handler : string -> A) : promise A :=
  match p with
  | Rejected message => Resolved (handler message)
  | _ => p
  end.

(** [Promise.all(promises)]: rejected as soon as one of them is, fulfilled
    when all of them are. *)
Fixpoint Promise_all (promises : list (promise unit)) : promise unit :=
  match promises with
  | [] => Resolved tt
  | Rejected message :: _ => Rejected message
  | Resolved _ :: r => Promise_all r
  | Pending :: r =>
      match Promise_all r with
      | Rejected message => Rejected message
      | _ => Pending
      end
  end.

(** [CleanupPromises.push(unlinkAsync(p).catch(err => console.error(...)))]
    for each path of the list. *)
Fixpoint start_unlinks (ps : list string) (w : world) : list (promise unit) * world :=
  match ps with
  | [] => ([], w)
  | p :: r =>
      let (pr, w1) := unlinkAsync p w in
      let (prs, w2) := start_unlinks r w1 in
      (catch pr (fun _ => tt) :: prs, w2)
  end.

(** The world after one unlink. *)
Definition unlink_caught (w : world) (p : string) : world := snd (unlinkAsync p w).

(** The paths for which the [finally] block starts an unlink.  Both tests
    are made before any of the unlinks has completed. *)
Definition cleanup_targets (fs : filesystem) (tempMuxedPath : option string)
  (finalOutputPath : string) : list string :=
  let first :=
    match tempMuxedPath with
    | Some p => if Str.nonempty p && Fs.existsSync fs p then [p] else []
    | None => []
    end in
  let partFilePath := finalOutputPath ++ ".part" in
  let second := if Fs.existsSync fs partFilePath then [partFilePath] else [] in
  (first ++ second)%list.

(** The [finally] block. *)
Definition cleanup (finalOutputPath : string) : M unit :=
  fun w =>
    let targets := cleanup_targets (fs w) (tempMuxedPath w) finalOutputPath in
    let (CleanupPromises, w') := start_unlinks targets w in
    (await (Promise_all CleanupPromises) ;;; emit CleanupFinished) w'.

Definition tempMuxedPathBase_of (timestamp : N) : string :=
  Path.join uploadsDir ("temp-muxed-" ++ Str.of_N timestamp).

Definition finalOutputPath_of (timestamp : N) : string :=
  Path.join uploadsDir ("clip-" ++ Str.of_N timestamp ++ ".mp4").

(** The [try] block after the validation. *)
Definition pipeline (tempMuxedPathBase finalOutputPath : string)
  (url startTime endTime : string) (ytdlp ffmpeg : list event) : M unit :=
  p <- runYtDlpDownload url tempMuxedPathBase startTime endTime ytdlp ;;
  set_tempMuxedPath p ;;;
  if negb (Str.nonempty p) then throw "Missing temporary muxed path after download."
  else
    emit (Spawn "ffmpeg" (ffmpeg_args p finalOutputPath)) ;;;
    q <- run_process (ffmpeg_run finalOutputPath ffmpeg "") ;;
    await q ;;;
    emit (Respond 200 (SuccessBody finalOutputPath "Video section processed successfully")).

(** The [try] and [catch] blocks of the handler of [POST /api/clip], for
    the request received at [timestamp], with the behaviour of the two
    child processes it may spawn. *)
Definition clip_try_catch (timestamp : N) (req : request)
  (ytdlp ffmpeg : list event) : M unit :=
  let tempMuxedPathBase := tempMuxedPathBase_of timestamp in
  let finalOutputPath := finalOutputPath_of timestamp in
  try_catch
    (match truthy (url req), truthy (startTime req), truthy (endTime req) with
     | Some u, Some s, Some e =>
         pipeline tempMuxedPathBase finalOutputPath u s e ytdlp ffmpeg
     | _, _, _ => emit (Respond 400 (ErrorBody "URL is required" None))
     end)
    (fun message =>
       emit (Respond 500 (ErrorBody "Failed to process video section" (Some message)))).

(** The whole handler: the [finally] block closes it. *)
Definition clip (timestamp : N) (req : request) (ytdlp ffmpeg : list event) : M unit :=
  finally (clip_try_catch timestamp req ytdlp ffmpeg)
          (cleanup (finalOutputPath_of timestamp)).

(** One request against the file system [fs0]. *)
Definition handle (timestamp : N) (req : request) (ytdlp ffmpeg : list event)
  (fs0 : filesystem) : completion unit * world :=
  clip timestamp req ytdlp ffmpeg (mkWorld fs0 None []).

End Handler.

(** ** Observations on processes and logs *)

(** How a process ends for the promise that waits for it. *)
Inductive ending : Type :=
| Closed (code : option Z)
| Errored (message : string).

(** The first ['error'] or ['close'] of a process, if it has one. *)
Fixpoint settle (tr : list event) : option ending :=
  match tr with
  | [] => None
  | ErrorEvent m :: _ => Some (Errored m)
  | CloseEvent code :: _ => Some (Closed code)
  | _ :: tr' => settle tr'
  end.

(** The file system when the promise settles. *)
Fixpoint fs_at_settle (tr : list event) (fs : filesystem) : filesystem :=
  match tr with
  | Writes p n :: tr' => fs_at_settle tr' (Fs.write fs p n)
  | Removes p :: tr' => fs_at_settle tr' (Fs.erase fs p)
  | StdoutData _ :: tr' => fs_at_settle tr' fs
  | StderrData _ :: tr' => fs_at_settle tr' fs
  | _ => fs
  end.

(** Everything the process wrote to stderr before the promise settles. *)
Fixpoint stderr_at_settle (tr : list event) : string :=
  match tr with
  | StderrData d :: tr' => d ++ stderr_at_settle tr'
  | StdoutData _ :: tr' => stderr_at_settle tr'
  | Writes _ _ :: tr' => stderr_at_settle tr'
  | Removes _ :: tr' => stderr_at_settle tr'
  | _ => ""
  end.

(** The stdout chunks the process wrote before the promise settles. *)
Fixpoint stdout_chunks (tr : list event) : list string :=
  match tr with
  | StdoutData d :: tr' => d :: stdout_chunks tr'
  | StderrData _ :: tr' => stdout_chunks tr'
  | Writes _ _ :: tr' => stdout_chunks tr'
  | Removes _ :: tr' => stdout_chunks tr'
  | _ => []
  end.

(** The variables of [runYtDlpDownload] when the promise settles. *)
Fixpoint fetcher_at_settle (outputPathBase : string) (tr : list event)
  (st : fetcher) : fetcher :=
  match tr with
  | StdoutData d :: tr' => fetcher_at_settle outputPathBase tr' (on_stdout outputPathBase d st)
  | StderrData d :: tr' => fetcher_at_settle outputPathBase tr' (on_stderr d st)
  | Writes _ _ :: tr' => fetcher_at_settle outputPathBase tr' st
  | Removes _ :: tr' => fetcher_at_settle outputPathBase tr' st
  | _ => st
  end.

Definition is_spawn (a : action) : bool :=
  match a with Spawn _ _ => true | _ => false end.

Definition is_respond (a : action) : bool :=
  match a with Respond _ _ => true | _ => false end.

Definition is_unlink (a : action) : bool :=
  match a with Unlinked _ | UnlinkFailed _ => true | _ => false end.

(** The response of the [catch] block. *)
Definition internal_error (message : string) : action :=
  Respond 500 (ErrorBody "Failed to process video section" (Some message)).

(** The responses sent, oldest first. *)
Fixpoint responses (l : list action) : list (N * body) :=
  match l with
  | [] => []
  | Respond status payload :: r => (status, payload) :: responses r
  | _ :: r => responses r
  end.

(** A response is sent after the cleanup has finished. *)
Fixpoint cleanup_before_response (l : list action) : bool :=
  match l with
  | [] => false
  | CleanupFinished :: r => existsb is_respond r
  | _ :: r => cleanup_before_response r
  end.

(** The unlinks were attempted on [p]. *)
Definition attempted (p : string) (l : list action) : Prop :=
  In (Unlinked p) l \/ In (UnlinkFailed p) l.

(** A field that the validation takes as missing. *)
Definition absent_or_empty (v : option string) : Prop := v = None \/ v = Some "".

(** One of the three fields is absent or empty. *)
Definition missing_field (req : request) : bool :=
  match truthy (url req), truthy (startTime req), truthy (endTime req) with
  | Some _, Some _, Some _ => false
  | _, _, _ => true
  end.

(** Nothing is left in the uploads directory whose name starts with
    [temp-muxed-<timestamp>], and there is no [.part] fragment of the
    final file. *)
Definition no_intermediate_left (uploadsDir : string) (timestamp : N)
  (fs : filesystem) : bool :=
  forallb (fun name => negb (Str.startsWith name ("temp-muxed-" ++ Str.of_N timestamp)))
          (Fs.children uploadsDir (entries fs))
  && negb (Fs.existsSync fs (finalOutputPath_of uploadsDir timestamp ++ ".part")).

(** ** Scenarios *)

Module Scenario.

Definition uploads : string := "/srv/backend/uploads".

Definition now : N := 1700000000000.

Definition disk : filesystem := mkFs [(uploads, Dir 4096)] [].

Definition good_request : request :=
  mkRequest (Some "https://video.example/watch?id=42") (Some "00:00:10") (Some "00:00:20").

Definition no_start_request : request :=
  mkRequest (Some "https://video.example/watch?id=42") None (Some "00:00:20").

Definition temp_mp4 : string := "/srv/backend/uploads/temp-muxed-1700000000000.mp4".

Definition temp_part : string := "/srv/backend/uploads/temp-muxed-1700000000000.mp4.part".

Definition clip_mp4 : string := "/srv/backend/uploads/clip-1700000000000.mp4".

(** A download that writes its file and exits with code 0; the
    destination line it prints is the one yt-dlp prints, which the pattern
    of the source does not match. *)
Definition download_ok : list event :=
  [ StdoutData "[download] Destination: /srv/backend/uploads/temp-muxed-1700000000000.mp4";
    Writes temp_mp4 (File 1000);
    CloseEvent (Some 0%Z) ].

(** A download whose output the pattern of the source matches, for a file
    that is gone when the process closes. *)
Definition download_announced_only : list event :=
  [ StdoutData "[downlaod] Destination: /srv/backend/uploads/temp-muxed-1700000000000.webm";
    Writes temp_mp4 (File 1000);
    CloseEvent (Some 0%Z) ].

(** A download whose output the pattern matches, for the file it wrote. *)
Definition download_announced : list event :=
  [ StdoutData "[downlaod] Destination: /srv/backend/uploads/temp-muxed-1700000000000.mp4";
    Writes temp_mp4 (File 1000);
    CloseEvent (Some 0%Z) ].

(** A download that leaves a partial file and exits with code 1. *)
Definition download_fails : list event :=
  [ Writes temp_part (File 10);
    StderrData "ERROR: unable to download video data";
    CloseEvent (Some 1%Z) ].

(** A download that exits with code 0 and leaves nothing. *)
Definition download_silent : list event :=
  [ StderrData "WARNING: nothing to do"; CloseEvent (Some 0%Z) ].

Definition remux_ok : list event :=
  [ StderrData "frame=  250"; Writes clip_mp4 (File 900); CloseEvent (Some 0%Z) ].

(** A remux that exits with code 0 and leaves an empty file. *)
Definition remux_empty : list event :=
  [ Writes clip_mp4 (File 0); CloseEvent (Some 0%Z) ].

Definition remux_fails : list event :=
  [ StderrData "Invalid data found"; CloseEvent (Some 1%Z) ].

End Scenario.

(** ** Start-up *)

Module Startup.

Fixpoint drop_segment (s : string) : string :=
  match s with
  | EmptyString => EmptyString
  | String c r => if Str.is_slash c then s else drop_segment r
  end.

(** [path.dirname(p)]: scanning from the end down to the second
    character, trailing separators and the last segment are skipped; the
    result is what precedes the separator found there.  Without such a
    separator it is the root for a rooted path and [.] otherwise. *)
Definition dirname (p : string) : string :=
  match p with
  | EmptyString => "."
  | String c0 rest =>
      let hasRoot := Str.is_slash c0 in
      match drop_segment (Str.drop_slashes (Str.rev rest)) with
      | EmptyString => if hasRoot then "/" else "."
      | String _ before =>
          if hasRoot && negb (Str.nonempty before) then "//"
          else String c0 (Str.rev before)
      end
  end.

(** [fs.mkdirSync(p)], not recursive: it throws ([None]) when [p] exists
    and when the parent of [p] is not an existing directory; [size] is the
    size the file system gives the new directory.  Other refusals of the
    operating system are not modelled. *)
Definition mkdirSync (fs : filesystem) (p : string) (size : N) : option filesystem :=
  match Fs.lookup p (entries fs) with
  | Some _ => None
  | None =>
      match Fs.lookup (dirname p) (entries fs) with
      | Some (Dir _) => Some (Fs.write fs p (Dir size))
      | _ => None
      end
  end.

(** [if (!fs.existsSync(uploadsDir)) { fs.mkdirSync(uploadsDir); }] *)
Definition ensure_uploads (uploadsDir : string) (size : N) (fs : filesystem)
  : option filesystem :=
  if negb (Fs.existsSync fs uploadsDir) then mkdirSync fs uploadsDir size
  else Some fs.

End Startup.

(** ** The skeleton of the handler *)

(** The [catch] block of the handler. *)
Definition catch_block (message : string) : M unit :=
  emit (Respond 500 (ErrorBody "Failed to process video section" (Some message))).

(** The [try] block of the handler. *)
Definition try_block (uploadsDir : string) (timestamp : N) (req : request)
  (ytdlp ffmpeg : list event) : M unit :=
  match truthy (url req), truthy (startTime req), truthy (endTime req) with
  | Some u, Some s, Some e =>
      pipeline uploadsDir (tempMuxedPathBase_of uploadsDir timestamp)
        (finalOutputPath_of uploadsDir timestamp) u s e ytdlp ffmpeg
  | _, _, _ => emit (Respond 400 (ErrorBody "URL is required" None))
  end.

(** The handler around any [try] block: the [catch] block and the
    [finally] block of the source. *)
Definition clip_with (body : M unit) (finalOutputPath : string) : M unit :=
  finally (try_catch body catch_block) (cleanup finalOutputPath).

(** ** Further observations *)

(** The path that one chunk of stdout makes the listener store, if it
    makes it store one. *)
Definition announced (outputPathBase output : string) : option string :=
  detectedPath (on_stdout outputPathBase output fetcher_init).

(** The path stored after a list of chunks: the one of the last chunk
    that announces one. *)
Definition last_announced (outputPathBase : string) (chunks : list string)
  : option string :=
  fold_left (fun acc chunk =>
               match announced outputPathBase chunk with
               | Some p => Some p
               | None => acc
               end) chunks None.

(** The character [c] occurs in [s]. *)
Fixpoint mentions (c : ascii) (s : string) : bool :=
  match s with
  | EmptyString => false
  | String d r => Ascii.eqb c d || mentions c r
  end.

(** No character of [s] is a line terminator. *)
Fixpoint one_line (s : string) : bool :=
  match s with
  | EmptyString => true
  | String c r => negb (Str.is_line_terminator c) && one_line r
  end.

Module Scenario2.

Definition parent : string := "/srv/backend".

Definition bare_disk : filesystem := mkFs [(parent, Dir 4096)] [].

(** A download that never closes. *)
Definition download_hangs : list event :=
  [ StdoutData "[download]   1.0% of 10MiB" ].

(** A download that cannot be started. *)
Definition download_enoent : list event :=
  [ ErrorEvent "spawn yt-dlp ENOENT"; CloseEvent (Some (-2)%Z) ].

(** A remux that cannot be started. *)
Definition remux_enoent : list event :=
  [ ErrorEvent "spawn ffmpeg ENOENT"; CloseEvent (Some (-2)%Z) ].

(** A remux that exits with code 1 after it has written part of the final
    file. *)
Definition remux_partial : list event :=
  [ Writes Scenario.clip_mp4 (File 12); StderrData "Broken pipe"; CloseEvent (Some 1%Z) ].

End Scenario2.

(** * Properties *)

(** ** Strings and paths *)

Lemma append_assoc (a b c : string) : (a ++ b) ++ c = a ++ (b ++ c).
Proof.
  induction a as [|x a IH]; simpl; [reflexivity | now rewrite IH].
Qed.

Lemma append_empty_r (a : string) : a ++ "" = a.
Proof.
  induction a as [|x a IH]; simpl; [reflexivity | now rewrite IH].
Qed.

Lemma strip_prefix_append (p s r : string) :
  Str.strip_prefix p s = Some r -> s = p ++ r.
Proof.
  revert s; induction p as [|a p IH]; intros s H; simpl in *.
  - now inversion H.
  - destruct s as [|b s]; [discriminate|].
    destruct (Ascii.eqb a b) eqn:E; [|discriminate].
    apply Ascii.eqb_eq in E; subst b.
    now rewrite (IH _ H).
Qed.

Lemma nonempty_true (s : string) : Str.nonempty s = true <-> s <> "".
Proof.
  destruct s; simpl; split; intro H; try reflexivity; try discriminate.
  now elim H.
Qed.

Lemma join_nonempty (dir name : string) : Str.nonempty (Path.join dir name) = true.
Proof.
  unfold Path.join. induction dir; reflexivity.
Qed.

(** ** Runs of the two processes *)

(** A run of the download is decided by the first ['error'] or ['close']
    of the process, the variables of the listeners and the file system at
    that moment. *)
Lemma ytdlp_run_settle (uploadsDir base : string) (tr : list event)
  (st : fetcher) (fs : filesystem) :
  ytdlp_run uploadsDir base tr st fs =
  (match settle tr with
   | None => Pending
   | Some (Errored m) => Rejected (download_spawn_message m)
   | Some (Closed code) =>
       ytdlp_on_close uploadsDir base (fetcher_at_settle base tr st) code (fs_at_settle tr fs)
   end, fs_at_settle tr fs).
Proof.
  revert st fs; induction tr as [|ev tr IH]; intros st fs; [reflexivity|].
  destruct ev; simpl; auto.
Qed.

Lemma ffmpeg_run_settle (final : string) (tr : list event) (err : string)
  (fs : filesystem) :
  ffmpeg_run final tr err fs =
  (match settle tr with
   | None => Pending
   | Some (Errored m) => Rejected (remux_spawn_message m)
   | Some (Closed code) =>
       ffmpeg_on_close final (err ++ stderr_at_settle tr) code (fs_at_settle tr fs)
   end, fs_at_settle tr fs).
Proof.
  revert err fs; induction tr as [|ev tr IH]; intros err fs; simpl.
  - reflexivity.
  - destruct ev; simpl; rewrite ?IH, ?append_assoc, ?append_empty_r; auto.
Qed.

Lemma fetcher_stderr (base : string) (tr : list event) (st : fetcher) :
  processStderr (fetcher_at_settle base tr st) = processStderr st ++ stderr_at_settle tr.
Proof.
  revert st; induction tr as [|ev tr IH]; intros st; simpl.
  - now rewrite append_empty_r.
  - destruct ev; simpl; rewrite ?IH, ?append_empty_r; auto.
    + unfold on_stdout.
      destruct (match_destination chunk) as [cap|]; [|reflexivity].
      destruct (Str.nonempty cap); [|reflexivity].
      destruct (Str.startsWith _ _); reflexivity.
    + simpl. now rewrite append_assoc.
Qed.

Lemma code_is_zero_true (code : option Z) :
  code_is_zero code = true <-> code = Some 0%Z.
Proof.
  destruct code as [z|]; simpl; split; intro H; try discriminate.
  - apply Z.eqb_eq in H. now subst.
  - inversion H. reflexivity.
Qed.

Lemma code_is_zero_false (code : option Z) :
  code_is_zero code = false <-> code <> Some 0%Z.
Proof.
  rewrite <- code_is_zero_true. destruct (code_is_zero code); split; intro H;
    try reflexivity; try discriminate; try (intro; discriminate).
  now elim H.
Qed.

Lemma download_messages_differ (c : option Z) (e1 e2 : string) :
  silent_failure_message e1 <> download_failed_message c e2.
Proof.
  unfold silent_failure_message, download_failed_message. simpl. discriminate.
Qed.

Lemma remux_messages_differ (c : option Z) (e1 e2 : string) :
  remux_empty_message e1 <> remux_failed_message c e2.
Proof.
  unfold remux_empty_message, remux_failed_message. simpl. discriminate.
Qed.

(** The search of the uploads directory finds nothing when the listing
    has no name that starts with the base name. *)
Lemma search_uploads_none (uploadsDir base : string) (fs : filesystem) :
  (forall files, Fs.readdirSync fs uploadsDir = Some files ->
     find (fun f => Str.startsWith f (Path.basename base)) files = None) ->
  search_uploads uploadsDir fs base = None.
Proof.
  intros H. unfold search_uploads.
  destruct (Fs.readdirSync fs uploadsDir) as [files|]; [|reflexivity].
  now rewrite (H files eq_refl).
Qed.

(** C3. Segment Fetcher, ['close'] listener.  When the download process
    closes with exit code 0 and no output file can be found (no detected
    path that exists, and no name in the uploads directory that starts
    with the base name of [outputPathBase]), the promise is rejected with
    the silent-failure message followed by the captured stderr.  When it
    closes with any other exit code, the promise is rejected with the
    message that carries the exit code and the captured stderr.  The two
    messages are never equal. *)
Theorem fetcher_rejections (uploadsDir base : string) (tr : list event)
  (fs : filesystem) (code : option Z) :
  settle tr = Some (Closed code) ->
  let st := fetcher_at_settle base tr fetcher_init in
  let fs' := fs_at_settle tr fs in
  let result := fst (ytdlp_run uploadsDir base tr fetcher_init fs) in
  (code = Some 0%Z ->
   detected_exists fs' st = None ->
   (forall files, Fs.readdirSync fs' uploadsDir = Some files ->
      find (fun f => Str.startsWith f (Path.basename base)) files = None) ->
   result = Rejected ("yt-dlp (muxed) indicated success, but no output file was found. Stderr: "
                      ++ stderr_at_settle tr))
  /\ (code <> Some 0%Z ->
      result = Rejected ("yt-dlp download (muxed) failed with code " ++ show_code code
                         ++ ". Stderr: " ++ stderr_at_settle tr))
  /\ (forall (c : option Z) (e1 e2 : string),
        "yt-dlp (muxed) indicated success, but no output file was found. Stderr: " ++ e1
        <> "yt-dlp download (muxed) failed with code " ++ show_code c ++ ". Stderr: " ++ e2).
Proof.
  intros Hs st fs' result.
  assert (R : result = ytdlp_on_close uploadsDir base st code fs').
  { unfold result. rewrite ytdlp_run_settle, Hs. reflexivity. }
  assert (E : processStderr st = stderr_at_settle tr).
  { unfold st. rewrite fetcher_stderr. reflexivity. }
  repeat split.
  - intros Hc Hd Hf. rewrite R. unfold ytdlp_on_close.
    apply code_is_zero_true in Hc. rewrite Hc, Hd.
    rewrite (search_uploads_none _ _ _ Hf), E. reflexivity.
  - intros Hc. rewrite R. unfold ytdlp_on_close.
    apply code_is_zero_false in Hc. rewrite Hc, E. reflexivity.
  - intros c e1 e2. exact (download_messages_differ c e1 e2).
Qed.

Lemma fetcher_rejections_witness :
  fst (ytdlp_run Scenario.uploads (tempMuxedPathBase_of Scenario.uploads Scenario.now)
         Scenario.download_silent fetcher_init Scenario.disk)
  = Rejected ("yt-dlp (muxed) indicated success, but no output file was found. Stderr: "
              ++ "WARNING: nothing to do")
  /\ fst (ytdlp_run Scenario.uploads (tempMuxedPathBase_of Scenario.uploads Scenario.now)
            Scenario.download_fails fetcher_init Scenario.disk)
     = Rejected ("yt-dlp download (muxed) failed with code 1. Stderr: "
                 ++ "ERROR: unable to download video data").
Proof.
  split.
  - refine (proj1 (fetcher_rejections Scenario.uploads _ Scenario.download_silent
                     Scenario.disk (Some 0%Z) eq_refl) eq_refl eq_refl _).
    intros files H. vm_compute in H. inversion H. reflexivity.
  - refine (proj1 (proj2 (fetcher_rejections Scenario.uploads _ Scenario.download_fails
                            Scenario.disk (Some 1%Z) eq_refl)) _).
    discriminate.
Defined.

Lemma final_nonempty_spec (fs : filesystem) (p : string) :
  final_nonempty fs p = true <->
  exists n, Fs.lookup p (entries fs) = Some n /\ (0 < node_size n)%N.
Proof.
  unfold final_nonempty, Fs.existsSync, Fs.stat_size.
  destruct (Fs.lookup p (entries fs)) as [n|]; simpl.
  - rewrite N.ltb_lt. split.
    + intros H. exists n. split; [reflexivity | exact H].
    + intros [m [Hm Hlt]]. inversion Hm. subst. exact Hlt.
  - split; [discriminate | intros [m [Hm _]]; discriminate].
Qed.

(** C4. Trim/Remux stage.  The promise of the stage is fulfilled exactly
    when the transcode process closes with exit code 0 and, at that
    moment, there is an entry at [finalOutputPath] whose size is greater
    than zero.  Exit code 0 with a missing or empty final file rejects
    with the missing-or-empty message; any other exit code rejects with
    the message that carries the code; the two messages are never
    equal. *)
Theorem remux_success_condition (final : string) (tr : list event) (fs : filesystem) :
  let fs' := fs_at_settle tr fs in
  let result := fst (ffmpeg_run final tr "" fs) in
  let final_is_nonempty :=
    exists n, Fs.lookup final (entries fs') = Some n /\ (0 < node_size n)%N in
  (result = Resolved tt <->
   settle tr = Some (Closed (Some 0%Z)) /\ final_is_nonempty)
  /\ (settle tr = Some (Closed (Some 0%Z)) -> ~ final_is_nonempty ->
      result = Rejected ("FFmpeg remux failed: Output file missing or empty. Stderr: "
                         ++ stderr_at_settle tr))
  /\ (forall code, settle tr = Some (Closed code) -> code <> Some 0%Z ->
      result = Rejected ("FFmpeg remux failed with code " ++ show_code code
                         ++ ". Stderr: " ++ stderr_at_settle tr))
  /\ (forall (c : option Z) (e1 e2 : string),
        "FFmpeg remux failed: Output file missing or empty. Stderr: " ++ e1
        <> "FFmpeg remux failed with code " ++ show_code c ++ ". Stderr: " ++ e2).
Proof.
  intros fs' result final_is_nonempty.
  assert (R : result =
              match settle tr with
              | None => Pending
              | Some (Errored m) => Rejected (remux_spawn_message m)
              | Some (Closed code) => ffmpeg_on_close final (stderr_at_settle tr) code fs'
              end).
  { unfold result. rewrite ffmpeg_run_settle. reflexivity. }
  assert (Z0 : code_is_zero (Some 0%Z) = true) by reflexivity.
  split; [split|split; [|split]].
  - intros H. rewrite R in H.
    destruct (settle tr) as [[code|m]|]; try discriminate.
    unfold ffmpeg_on_close in H.
    destruct (code_is_zero code) eqn:Hc; [|discriminate].
    apply code_is_zero_true in Hc. subst code.
    destruct (final_nonempty fs' final) eqn:Hf; [|discriminate].
    split; [reflexivity | now apply final_nonempty_spec].
  - intros [Hs Hf]. rewrite R, Hs. unfold ffmpeg_on_close. rewrite Z0.
    apply final_nonempty_spec in Hf. now rewrite Hf.
  - intros Hs Hf. rewrite R, Hs. unfold ffmpeg_on_close. rewrite Z0.
    destruct (final_nonempty fs' final) eqn:E; [|reflexivity].
    apply final_nonempty_spec in E. contradiction.
  - intros code Hs Hc. rewrite R, Hs. unfold ffmpeg_on_close.
    apply code_is_zero_false in Hc. now rewrite Hc.
  - intros c e1 e2. exact (remux_messages_differ c e1 e2).
Qed.

Lemma remux_success_condition_witness :
  fst (ffmpeg_run Scenario.clip_mp4 Scenario.remux_ok "" Scenario.disk) = Resolved tt
  /\ fst (ffmpeg_run Scenario.clip_mp4 Scenario.remux_empty "" Scenario.disk)
     = Rejected "FFmpeg remux failed: Output file missing or empty. Stderr: "
  /\ fst (ffmpeg_run Scenario.clip_mp4 Scenario.remux_fails "" Scenario.disk)
     = Rejected "FFmpeg remux failed with code 1. Stderr: Invalid data found".
Proof.
  split; [|split].
  - apply (proj1 (remux_success_condition Scenario.clip_mp4 Scenario.remux_ok Scenario.disk)).
    split; [reflexivity|]. exists (File 900). split; [reflexivity | reflexivity].
  - refine (proj1 (proj2 (remux_success_condition Scenario.clip_mp4 Scenario.remux_empty
                            Scenario.disk)) eq_refl _).
    intros [n [Hn Hlt]]. vm_compute in Hn. inversion Hn. subst n. discriminate Hlt.
  - refine (proj1 (proj2 (proj2 (remux_success_condition Scenario.clip_mp4
                                   Scenario.remux_fails Scenario.disk)))
              (Some 1%Z) eq_refl _).
    discriminate.
Defined.

(** ** The directory search *)

Lemma child_name_join (dir p name : string) :
  Fs.child_name dir p = Some name ->
  p = Path.join dir name /\ Str.nonempty name = true.
Proof.
  unfold Fs.child_name, Path.join.
  destruct (Str.strip_prefix (dir ++ "/") p) as [r|] eqn:E; [|discriminate].
  destruct (Str.nonempty r) eqn:Hn; simpl; [|discriminate].
  destruct (Str.has_slash r); simpl; [discriminate|].
  intros H. inversion H. subst r.
  apply strip_prefix_append in E. rewrite append_assoc in E. now split.
Qed.

(** Every name that [readdirSync] reports is the name of an existing
    path of the directory. *)
Lemma children_exist (dir f : string) (l : list (string * node)) :
  In f (Fs.children dir l) ->
  Str.nonempty f = true /\ exists n, Fs.lookup (Path.join dir f) l = Some n.
Proof.
  induction l as [|[q m] l IH]; simpl; [contradiction|].
  destruct (Fs.child_name dir q) as [name|] eqn:E.
  - intros [H|H].
    + subst name. destruct (child_name_join _ _ _ E) as [Hq Hn]. subst q.
      split; [exact Hn|]. rewrite String.eqb_refl. now exists m.
    + destruct (IH H) as [Hn [n Hl]]. split; [exact Hn|].
      destruct (String.eqb q (Path.join dir f)); [now exists m | now exists n].
  - intros H. destruct (IH H) as [Hn [n Hl]]. split; [exact Hn|].
    destruct (String.eqb q (Path.join dir f)); [now exists m | now exists n].
Qed.

Lemma search_uploads_found (uploadsDir base : string) (fs : filesystem)
  (files : list string) (f : string) :
  Fs.readdirSync fs uploadsDir = Some files ->
  find (fun g => Str.startsWith g (Path.basename base)) files = Some f ->
  search_uploads uploadsDir fs base = Some (Path.join uploadsDir f).
Proof.
  intros Hr Hf. unfold search_uploads. rewrite Hr, Hf.
  assert (Hin : In f (Fs.children uploadsDir (entries fs))).
  { unfold Fs.readdirSync in Hr.
    destruct (Fs.lookup uploadsDir (entries fs)) as [[s|s]|]; try discriminate.
    inversion Hr. subst files. now apply find_some in Hf. }
  destruct (children_exist _ _ _ Hin) as [Hn [n Hl]].
  rewrite Hn. unfold Fs.existsSync. now rewrite Hl.
Qed.

(** What the search resolves to exists. *)
Lemma search_uploads_exists (uploadsDir base : string) (fs : filesystem) (q : string) :
  search_uploads uploadsDir fs base = Some q ->
  Fs.existsSync fs q = true /\ Str.nonempty q = true.
Proof.
  unfold search_uploads.
  destruct (Fs.readdirSync fs uploadsDir) as [files|]; [|discriminate].
  destruct (find _ files) as [f|]; [|discriminate].
  destruct (Str.nonempty f); [|discriminate].
  destruct (Fs.existsSync fs (Path.join uploadsDir f)) eqn:E; [|discriminate].
  intros H. inversion H. subst q. split; [exact E | apply join_nonempty].
Qed.

(** C6. Segment Fetcher, fallback.  When the download process closes with
    exit code 0 and no destination path was detected from stdout, the
    promise resolves to the path, in the uploads directory, of the first
    listed name that starts with the base name of [outputPathBase]; it
    is rejected exactly when the listing has no such name. *)
Theorem fetcher_fallback (uploadsDir base : string) (tr : list event) (fs : filesystem) :
  settle tr = Some (Closed (Some 0%Z)) ->
  detectedPath (fetcher_at_settle base tr fetcher_init) = None ->
  let fs' := fs_at_settle tr fs in
  let result := fst (ytdlp_run uploadsDir base tr fetcher_init fs) in
  let candidate := fun f => Str.startsWith f (Path.basename base) in
  (forall files f,
     Fs.readdirSync fs' uploadsDir = Some files ->
     find candidate files = Some f ->
     result = Resolved (Path.join uploadsDir f))
  /\ ((exists message, result = Rejected message) <->
      (forall files, Fs.readdirSync fs' uploadsDir = Some files ->
         find candidate files = None)).
Proof.
  intros Hs Hd fs' result candidate.
  assert (R : result =
              match search_uploads uploadsDir fs' base with
              | Some fullPath => Resolved fullPath
              | None =>
                  Rejected (silent_failure_message
                              (processStderr (fetcher_at_settle base tr fetcher_init)))
              end).
  { unfold result. rewrite ytdlp_run_settle, Hs. simpl.
    unfold ytdlp_on_close, detected_exists. simpl. now rewrite Hd. }
  split; [|split].
  - intros files f Hr Hf. rewrite R.
    now rewrite (search_uploads_found _ _ _ _ _ Hr Hf).
  - intros [message Hm] files Hr.
    destruct (find candidate files) as [f|] eqn:Hf; [|reflexivity].
    rewrite R, (search_uploads_found _ _ _ _ _ Hr Hf) in Hm. discriminate.
  - intros H. rewrite R, (search_uploads_none _ _ _ H). eexists. reflexivity.
Qed.

Lemma fetcher_fallback_witness :
  fst (ytdlp_run Scenario.uploads (tempMuxedPathBase_of Scenario.uploads Scenario.now)
         Scenario.download_ok fetcher_init Scenario.disk)
  = Resolved Scenario.temp_mp4.
Proof.
  refine (proj1 (fetcher_fallback Scenario.uploads _ Scenario.download_ok Scenario.disk
                   eq_refl eq_refl)
            ["temp-muxed-1700000000000.mp4"] "temp-muxed-1700000000000.mp4" _ _);
    reflexivity.
Defined.

(** ** Destination detection *)

Lemma on_stdout_detected (base output : string) (st : fetcher) (p : string) :
  detectedPath (on_stdout base output st) = Some p ->
  detectedPath st = Some p \/
  (exists cap, match_destination output = Some cap /\ p = Str.trim cap
               /\ Str.startsWith p base = true).
Proof.
  unfold on_stdout.
  destruct (match_destination output) as [cap|]; [|simpl; now left].
  destruct (Str.nonempty cap); [|simpl; now left].
  destruct (Str.startsWith (Str.trim cap) base) eqn:E; simpl; [|now left].
  intros H. inversion H. subst p. right. exists cap. now repeat split.
Qed.

(** A detected path comes from a chunk of stdout that matches the
    pattern, and starts with [outputPathBase]. *)
Lemma detected_origin (base : string) (tr : list event) (st : fetcher) (p : string) :
  detectedPath (fetcher_at_settle base tr st) = Some p ->
  detectedPath st = Some p \/
  (exists chunk cap, In chunk (stdout_chunks tr) /\ match_destination chunk = Some cap
                     /\ p = Str.trim cap /\ Str.startsWith p base = true).
Proof.
  revert st; induction tr as [|ev tr IH]; intros st H; simpl in *; [now left|].
  destruct ev; simpl in *; try (now left); try (now apply IH).
  - destruct (IH _ H) as [H1|[c [cap [Hin Hrest]]]].
    + destruct (on_stdout_detected _ _ _ _ H1) as [H2|[cap Hcap]]; [now left|].
      right. exists chunk, cap. split; [now left | exact Hcap].
    + right. exists c, cap. split; [now right | exact Hrest].
  - destruct (IH _ H) as [H1|[c [cap [Hin Hrest]]]]; [now left|].
    right. exists c, cap. now split.
Qed.

Lemma startsWith_nonempty (p base : string) :
  Str.startsWith p base = true -> base <> "" -> Str.nonempty p = true.
Proof.
  unfold Str.startsWith. destruct base as [|a b]; [intros _ H; now elim H|].
  destruct p; simpl; [discriminate | reflexivity].
Qed.

(** C9. Segment Fetcher, detected path.  When the download process closes
    with exit code 0 and a destination path [p] was detected, [p] comes
    from a chunk of stdout that matches the pattern and starts with
    [outputPathBase]; the promise resolves to [p] exactly when [p] exists
    at that moment, and when it does not exist the result is the one of
    the directory search. *)
Theorem detected_path_needs_file (uploadsDir base : string) (tr : list event)
  (fs : filesystem) (p : string) :
  base <> "" ->
  settle tr = Some (Closed (Some 0%Z)) ->
  detectedPath (fetcher_at_settle base tr fetcher_init) = Some p ->
  let fs' := fs_at_settle tr fs in
  let result := fst (ytdlp_run uploadsDir base tr fetcher_init fs) in
  (exists chunk cap, In chunk (stdout_chunks tr) /\ match_destination chunk = Some cap
                     /\ p = Str.trim cap /\ Str.startsWith p base = true)
  /\ (result = Resolved p <-> Fs.existsSync fs' p = true)
  /\ (Fs.existsSync fs' p = false ->
      result = match search_uploads uploadsDir fs' base with
               | Some fullPath => Resolved fullPath
               | None => Rejected ("yt-dlp (muxed) indicated success, but no output file was found. Stderr: "
                                   ++ stderr_at_settle tr)
               end).
Proof.
  intros Hb Hs Hd fs' result.
  assert (O : exists chunk cap, In chunk (stdout_chunks tr)
                /\ match_destination chunk = Some cap
                /\ p = Str.trim cap /\ Str.startsWith p base = true).
  { destruct (detected_origin _ _ _ _ Hd) as [H|H]; [discriminate H | exact H]. }
  assert (Hp : Str.nonempty p = true).
  { destruct O as [c [cap [_ [_ [_ Hsw]]]]]. now apply (startsWith_nonempty p base). }
  assert (R : result =
              if Fs.existsSync fs' p then Resolved p
              else match search_uploads uploadsDir fs' base with
                   | Some fullPath => Resolved fullPath
                   | None => Rejected (silent_failure_message (stderr_at_settle tr))
                   end).
  { unfold result. rewrite ytdlp_run_settle, Hs. simpl.
    unfold ytdlp_on_close, detected_exists. simpl. rewrite Hd, Hp. simpl.
    rewrite fetcher_stderr. simpl. unfold fs'.
    destruct (Fs.existsSync (fs_at_settle tr fs) p); reflexivity. }
  split; [exact O|]. split; [split|].
  - intros H. rewrite R in H.
    destruct (Fs.existsSync fs' p) eqn:E; [reflexivity|].
    destruct (search_uploads uploadsDir fs' base) as [q|] eqn:Hq; [|discriminate].
    inversion H. subst q.
    destruct (search_uploads_exists _ _ _ _ Hq) as [He _]. congruence.
  - intros H. now rewrite R, H.
  - intros H. now rewrite R, H.
Qed.

Lemma detected_path_needs_file_witness :
  fst (ytdlp_run Scenario.uploads (tempMuxedPathBase_of Scenario.uploads Scenario.now)
         Scenario.download_announced fetcher_init Scenario.disk)
  = Resolved Scenario.temp_mp4
  /\ fst (ytdlp_run Scenario.uploads (tempMuxedPathBase_of Scenario.uploads Scenario.now)
            Scenario.download_announced_only fetcher_init Scenario.disk)
     = Resolved Scenario.temp_mp4.
Proof.
  split.
  - refine (proj2 (proj1 (proj2 (detected_path_needs_file Scenario.uploads
                                   (tempMuxedPathBase_of Scenario.uploads Scenario.now)
                                   Scenario.download_announced Scenario.disk
                                   Scenario.temp_mp4 _ eq_refl eq_refl))) eq_refl).
    discriminate.
  - refine (proj2 (proj2 (detected_path_needs_file Scenario.uploads
                            (tempMuxedPathBase_of Scenario.uploads Scenario.now)
                            Scenario.download_announced_only Scenario.disk
                            "/srv/backend/uploads/temp-muxed-1700000000000.webm"
                            _ eq_refl eq_refl)) eq_refl).
    discriminate.
Defined.

(** ** Unlinking *)

Lemma lookup_remove (p q : string) (l : list (string * node)) :
  Fs.lookup q (Fs.remove p l) = if String.eqb p q then None else Fs.lookup q l.
Proof.
  induction l as [|[k n] l IH]; simpl.
  - now destruct (String.eqb p q).
  - destruct (String.eqb k p) eqn:Ekp.
    + rewrite IH. apply String.eqb_eq in Ekp. subst k.
      now destruct (String.eqb p q).
    + simpl. rewrite IH. destruct (String.eqb k q) eqn:Ekq; [|reflexivity].
      apply String.eqb_eq in Ekq. subst k.
      rewrite String.eqb_sym in Ekp. now rewrite Ekp.
Qed.

(** Why an unlink fails: the path is absent, a directory, or refused. *)
Lemma unlink_none (fs : filesystem) (p : string) :
  Fs.unlink fs p = None <->
  Fs.lookup p (entries fs) = None
  \/ (exists s, Fs.lookup p (entries fs) = Some (Dir s))
  \/ Fs.mem p (undeletable fs) = true.
Proof.
  unfold Fs.unlink.
  destruct (Fs.lookup p (entries fs)) as [[s|s]|].
  - destruct (Fs.mem p (undeletable fs)); split; intros H; try discriminate; auto.
    destruct H as [H|[[s' H]|H]]; discriminate.
  - split; [intros _; right; left; now exists s | reflexivity].
  - split; [now left | reflexivity].
Qed.

Lemma unlink_some (fs fs' : filesystem) (p : string) :
  Fs.unlink fs p = Some fs' ->
  entries fs' = Fs.remove p (entries fs) /\ undeletable fs' = undeletable fs.
Proof.
  unfold Fs.unlink.
  destruct (Fs.lookup p (entries fs)) as [[s|s]|]; try discriminate.
  destruct (Fs.mem p (undeletable fs)); [discriminate|].
  intros H. inversion H. now split.
Qed.

(** An unlink that fails keeps failing after any other unlink. *)
Lemma unlink_none_stable (fs fs' : filesystem) (p q : string) :
  Fs.unlink fs p = None -> Fs.unlink fs q = Some fs' -> Fs.unlink fs' p = None.
Proof.
  intros Hp Hq. destruct (unlink_some _ _ _ Hq) as [He Hu].
  apply unlink_none. apply unlink_none in Hp.
  rewrite He, Hu, lookup_remove.
  destruct (String.eqb q p); [now left | exact Hp].
Qed.

Lemma unlink_twice (fs fs' : filesystem) (p : string) :
  Fs.unlink fs p = Some fs' -> Fs.unlink fs' p = None.
Proof.
  intros H. destruct (unlink_some _ _ _ H) as [He _].
  apply unlink_none. left. rewrite He, lookup_remove. now rewrite String.eqb_refl.
Qed.

Lemma unlink_caught_temp (w : world) (p : string) :
  tempMuxedPath (unlink_caught w p) = tempMuxedPath w.
Proof.
  unfold unlink_caught, unlinkAsync. now destruct (Fs.unlink (fs w) p).
Qed.

Lemma fold_unlink_temp (ps : list string) (w : world) :
  tempMuxedPath (fold_left unlink_caught ps w) = tempMuxedPath w.
Proof.
  revert w; induction ps as [|p ps IH]; intros w; simpl; [reflexivity|].
  now rewrite IH, unlink_caught_temp.
Qed.

(** After the unlinks of a list of paths, an unlink of any of them fails:
    each is gone, or is one that cannot be removed. *)
Lemma fold_unlink_stuck (ps : list string) (w : world) (p : string) :
  In p ps \/ Fs.unlink (fs w) p = None ->
  Fs.unlink (fs (fold_left unlink_caught ps w)) p = None.
Proof.
  revert w; induction ps as [|q ps IH]; intros w H; simpl.
  - destruct H as [[]|H]. exact H.
  - apply IH. unfold unlink_caught, unlinkAsync.
    destruct (Fs.unlink (fs w) q) as [fs'|] eqn:Eq; simpl.
    + destruct H as [[H|H]|H].
      * subst q. right. now apply (unlink_twice (fs w)).
      * now left.
      * right. now apply (unlink_none_stable (fs w) fs' p q).
    + destruct H as [[H|H]|H]; [subst q; now right | now left | now right].
Qed.

(** Unlinks that all fail change nothing. *)
Lemma fold_unlink_noop (ps : list string) (w : world) :
  (forall p, In p ps -> Fs.unlink (fs w) p = None) ->
  fs (fold_left unlink_caught ps w) = fs w.
Proof.
  revert w; induction ps as [|q ps IH]; intros w H; simpl; [reflexivity|].
  assert (Hq : Fs.unlink (fs w) q = None) by (apply H; now left).
  assert (E : fs (unlink_caught w q) = fs w).
  { unfold unlink_caught, unlinkAsync. now rewrite Hq. }
  rewrite IH; [exact E|].
  intros p Hp. rewrite E. apply H. now right.
Qed.

(** Unlinks only remove the paths they are given. *)
Lemma fold_unlink_lookup (ps : list string) (w : world) (q : string) :
  Fs.lookup q (entries (fs (fold_left unlink_caught ps w))) = Fs.lookup q (entries (fs w))
  \/ (In q ps /\ Fs.lookup q (entries (fs (fold_left unlink_caught ps w))) = None).
Proof.
  revert w; induction ps as [|p ps IH]; intros w; simpl; [now left|].
  assert (S : Fs.lookup q (entries (fs (unlink_caught w p))) = Fs.lookup q (entries (fs w))
              \/ (p = q /\ Fs.lookup q (entries (fs (unlink_caught w p))) = None)).
  { unfold unlink_caught, unlinkAsync. destruct (Fs.unlink (fs w) p) as [fs'|] eqn:E; simpl; [|now left].
    destruct (unlink_some _ _ _ E) as [He _]. rewrite He, lookup_remove.
    destruct (String.eqb p q) eqn:Epq; [|now left].
    apply String.eqb_eq in Epq. now right. }
  destruct (IH (unlink_caught w p)) as [H|[Hin H]].
  - destruct S as [S|[Hpq S]].
    + left. now rewrite H.
    + right. split; [now left | now rewrite H].
  - right. split; [now right | exact H].
Qed.

(** The log of a list of unlinks: one attempt for each path, in order,
    and nothing else. *)
Lemma fold_unlink_log (ps : list string) (w : world) :
  exists l, log (fold_left unlink_caught ps w) = (log w ++ l)%list
            /\ forallb is_unlink l = true
            /\ (forall p, In p ps <-> attempted p l).
Proof.
  revert w; induction ps as [|q ps IH]; intros w; simpl.
  - exists []. rewrite app_nil_r. repeat split; try tauto.
    intros [H|H]; exact H.
  - destruct (IH (unlink_caught w q)) as [l [Hl [Hu Ha]]].
    assert (A : exists a, log (unlink_caught w q) = (log w ++ [a])%list
                          /\ (a = Unlinked q \/ a = UnlinkFailed q)).
    { unfold unlink_caught, unlinkAsync. destruct (Fs.unlink (fs w) q); simpl; eexists; eauto. }
    destruct A as [a [Hlog Hq]].
    exists (a :: l). rewrite Hl, Hlog, <- app_assoc. simpl.
    split; [reflexivity|]. split.
    + destruct Hq; subst a; exact Hu.
    + intros p. unfold attempted in *. simpl. rewrite (Ha p). split.
      * intros [H|[H|H]]; [subst p; destruct Hq; subst a; auto | auto | auto].
      * intros [[H|H]|[H|H]]; auto.
        -- left. destruct Hq as [Hq|Hq]; rewrite Hq in H; now inversion H.
        -- left. destruct Hq as [Hq|Hq]; rewrite Hq in H; now inversion H.
Qed.

(** ** The cleanup block *)

Lemma start_unlinks_world (ps : list string) (w : world) :
  snd (start_unlinks ps w) = fold_left unlink_caught ps w.
Proof.
  revert w; induction ps as [|p ps IH]; intros w; simpl; [reflexivity|].
  unfold unlink_caught at 2.
  destruct (unlinkAsync p w) as [pr w1]. simpl. rewrite <- IH.
  now destruct (start_unlinks ps w1).
Qed.

(** Every promise of the cleanup is fulfilled: the rejections are caught. *)
Lemma start_unlinks_fulfilled (ps : list string) (w : world) :
  Promise_all (fst (start_unlinks ps w)) = Resolved tt.
Proof.
  revert w; induction ps as [|p ps IH]; intros w; simpl; [reflexivity|].
  destruct (unlinkAsync p w) as [pr w1] eqn:E.
  specialize (IH w1). destruct (start_unlinks ps w1) as [prs w2]. simpl in *.
  unfold unlinkAsync in E.
  destruct (Fs.unlink (fs w) p); inversion E; subst; simpl; exact IH.
Qed.

Lemma cleanup_eq (final : string) (w : world) :
  cleanup final w =
  let w' := fold_left unlink_caught (cleanup_targets (fs w) (tempMuxedPath w) final) w in
  (Normal tt, mkWorld (fs w') (tempMuxedPath w') (log w' ++ [CleanupFinished])%list).
Proof.
  unfold cleanup. cbv zeta.
  pose proof (start_unlinks_world (cleanup_targets (fs w) (tempMuxedPath w) final) w) as W.
  pose proof (start_unlinks_fulfilled (cleanup_targets (fs w) (tempMuxedPath w) final) w) as P.
  destruct (start_unlinks _ w) as [prs w']. simpl in W, P. subst w'.
  unfold bind. rewrite P. reflexivity.
Qed.

Lemma in_cleanup_targets (fs : filesystem) (t : option string) (final p : string) :
  In p (cleanup_targets fs t final) <->
  (t = Some p /\ Str.nonempty p = true /\ Fs.existsSync fs p = true)
  \/ (p = final ++ ".part" /\ Fs.existsSync fs p = true).
Proof.
  unfold cleanup_targets. rewrite in_app_iff. split.
  - intros [H|H].
    + left. destruct t as [q|]; [|contradiction].
      destruct (Str.nonempty q) eqn:Hn; simpl in H; [|contradiction].
      destruct (Fs.existsSync fs q) eqn:He; simpl in H; [|contradiction].
      destruct H as [H|[]]. subst q. now repeat split.
    + right. destruct (Fs.existsSync fs (final ++ ".part")) eqn:He; [|contradiction].
      destruct H as [H|[]]. subst p. now split.
  - intros [[Ht [Hn He]]|[Hp He]].
    + left. subst t. rewrite Hn, He. now left.
    + right. subst p. rewrite He. now left.
Qed.

Lemma exists_after_unlinks (ps : list string) (w : world) (p : string) :
  Fs.existsSync (fs (fold_left unlink_caught ps w)) p = true ->
  Fs.existsSync (fs w) p = true.
Proof.
  unfold Fs.existsSync.
  destruct (fold_unlink_lookup ps w p) as [H|[_ H]]; rewrite H; [tauto | discriminate].
Qed.

Lemma responses_app (l1 l2 : list action) :
  responses (l1 ++ l2) = (responses l1 ++ responses l2)%list.
Proof.
  induction l1 as [|a l1 IH]; simpl; [reflexivity|].
  destruct a; simpl; now rewrite ?IH.
Qed.

Lemma responses_unlinks (l : list action) :
  forallb is_unlink l = true -> responses l = [].
Proof.
  induction l as [|a l IH]; simpl; [reflexivity|].
  destruct a; simpl; try discriminate; exact IH.
Qed.

(** The log of the cleanup block: the attempts on its targets, then the
    end of the block. *)
Lemma cleanup_log (final : string) (w : world) :
  exists l, log (snd (cleanup final w)) = (log w ++ l ++ [CleanupFinished])%list
            /\ forallb is_unlink l = true
            /\ (forall p, In p (cleanup_targets (fs w) (tempMuxedPath w) final)
                          <-> attempted p l).
Proof.
  destruct (fold_unlink_log (cleanup_targets (fs w) (tempMuxedPath w) final) w)
    as [l [Hl [Hu Ha]]].
  exists l. rewrite cleanup_eq. cbv zeta. cbn [snd log]. rewrite Hl, <- app_assoc.
  split; [reflexivity|]. split; [exact Hu | exact Ha].
Qed.

(** C7. Cleanup.  The block never throws, the first time or the second.
    The second of two runs in a row leaves the file system as the first
    left it.  When neither artifact exists the block changes nothing and
    attempts no unlink; an unlink is only ever attempted on a path that
    exists.  Every artifact that exists when the block starts gets its
    unlink attempt, whatever the outcome of the other one.  The block
    sends no response, and the [try]/[catch] it closes ends as it would
    have ended without it. *)
Theorem cleanup_idempotent_tolerant (final : string) (w : world) :
  let part := final ++ ".part" in
  let w1 := snd (cleanup final w) in
  let w2 := snd (cleanup final w1) in
  fst (cleanup final w) = Normal tt
  /\ fst (cleanup final w1) = Normal tt
  /\ fs w2 = fs w1
  /\ ((forall p, tempMuxedPath w = Some p -> Fs.existsSync (fs w) p = false) ->
      Fs.existsSync (fs w) part = false ->
      fs w1 = fs w /\ log w1 = (log w ++ [CleanupFinished])%list)
  /\ (exists l, log w1 = (log w ++ l ++ [CleanupFinished])%list
                /\ forallb is_unlink l = true
                /\ (forall p, tempMuxedPath w = Some p -> p <> "" ->
                              Fs.existsSync (fs w) p = true -> attempted p l)
                /\ (Fs.existsSync (fs w) part = true -> attempted part l)
                /\ (forall p, attempted p l -> Fs.existsSync (fs w) p = true))
  /\ responses (log w1) = responses (log w)
  /\ (forall (A : Type) (m : M A) (w0 : world),
        fst (finally m (cleanup final) w0) = fst (m w0)).
Proof.
  intros part w1 w2.
  set (ps := cleanup_targets (fs w) (tempMuxedPath w) final).
  assert (F1 : fs w1 = fs (fold_left unlink_caught ps w)).
  { unfold w1. now rewrite cleanup_eq. }
  assert (T1 : tempMuxedPath w1 = tempMuxedPath w).
  { unfold w1. rewrite cleanup_eq. simpl. apply fold_unlink_temp. }
  destruct (cleanup_log final w) as [l [L1 [Hu Ha]]].
  fold w1 in L1. fold ps in Ha.
  split; [now rewrite cleanup_eq|]. split; [now rewrite cleanup_eq|].
  clearbody w1.
  split; [|split; [|split; [|split]]].
  - unfold w2. rewrite cleanup_eq. cbv zeta. cbn [snd fs].
    apply fold_unlink_noop.
    intros p Hp. rewrite F1. apply fold_unlink_stuck. left.
    apply in_cleanup_targets in Hp. apply in_cleanup_targets.
    rewrite T1 in Hp. rewrite F1 in Hp.
    destruct Hp as [[Ht [Hn He]]|[Hp He]].
    + left. repeat split; auto. now apply (exists_after_unlinks ps w).
    + right. split; auto. now apply (exists_after_unlinks ps w).
  - intros Ht Hp.
    assert (E : ps = []).
    { unfold ps, cleanup_targets. fold part. rewrite Hp.
      destruct (tempMuxedPath w) as [q|]; [|reflexivity].
      rewrite (Ht q eq_refl). now rewrite andb_false_r. }
    split.
    + rewrite F1, E. reflexivity.
    + rewrite L1. destruct l as [|a l]; [reflexivity|].
      exfalso. rewrite E in Ha. destruct a; try discriminate Hu.
      * apply (proj2 (Ha p)). left. now left.
      * apply (proj2 (Ha p)). right. now left.
  - exists l. split; [exact L1|]. split; [exact Hu|]. split; [|split].
    + intros p Ht Hn He. apply Ha. apply in_cleanup_targets. left.
      repeat split; auto. now apply nonempty_true.
    + intros He. apply Ha. apply in_cleanup_targets. right. now split.
    + intros p Hp. apply Ha in Hp. apply in_cleanup_targets in Hp.
      destruct Hp as [[_ [_ He]]|[_ He]]; exact He.
  - rewrite L1, !responses_app, (responses_unlinks l Hu). simpl.
    now rewrite app_nil_r.
  - intros A m w0. unfold finally.
    destruct (m w0) as [[a|e|] w']; rewrite ?cleanup_eq; reflexivity.
Qed.

Lemma cleanup_idempotent_tolerant_witness :
  fs (snd (cleanup Scenario.clip_mp4 (mkWorld Scenario.disk None []))) = Scenario.disk
  /\ log (snd (cleanup Scenario.clip_mp4 (mkWorld Scenario.disk None []))) = [CleanupFinished].
Proof.
  refine (proj1 (proj2 (proj2 (proj2
            (cleanup_idempotent_tolerant Scenario.clip_mp4 (mkWorld Scenario.disk None [])))))
            _ eq_refl).
  intros p H. discriminate H.
Defined.

(** ** The handler, path by path *)

(** The download only resolves to a non-empty path, so the guard after
    the download never throws. *)
Lemma ytdlp_resolved_nonempty (uploadsDir base : string) (tr : list event)
  (st : fetcher) (fs : filesystem) (p : string) :
  fst (ytdlp_run uploadsDir base tr st fs) = Resolved p -> Str.nonempty p = true.
Proof.
  rewrite ytdlp_run_settle. simpl.
  destruct (settle tr) as [[code|m]|]; try discriminate.
  unfold ytdlp_on_close. destruct (code_is_zero code); [|discriminate].
  destruct (detected_exists _ _) as [q|] eqn:Ed.
  - intros H. inversion H. subst q. unfold detected_exists in Ed.
    destruct (detectedPath _) as [r|]; [|discriminate].
    destruct (Str.nonempty r) eqn:Hn; simpl in Ed; [|discriminate].
    destruct (Fs.existsSync _ r); [|discriminate]. inversion Ed. now subst.
  - destruct (search_uploads _ _ _) as [q|] eqn:Es; [|discriminate].
    intros H. inversion H. subst q. now destruct (search_uploads_exists _ _ _ _ Es).
Qed.

(** The [try] and [catch] blocks, one case for each way through them. *)
Lemma clip_try_catch_eq (uploadsDir : string) (ts : N) (req : request)
  (y f : list event) (fs0 : filesystem) :
  clip_try_catch uploadsDir ts req y f (mkWorld fs0 None []) =
  match truthy (url req), truthy (startTime req), truthy (endTime req) with
  | Some u, Some s, Some e =>
      let base := tempMuxedPathBase_of uploadsDir ts in
      let final := finalOutputPath_of uploadsDir ts in
      let spawn1 := Spawn "yt-dlp" (ytdlp_args u base s e) in
      match ytdlp_run uploadsDir base y fetcher_init fs0 with
      | (Pending, fs1) => (Never, mkWorld fs1 None [spawn1])
      | (Rejected m, fs1) => (Normal tt, mkWorld fs1 None [spawn1; internal_error m])
      | (Resolved p, fs1) =>
          let spawn2 := Spawn "ffmpeg" (ffmpeg_args p final) in
          match ffmpeg_run final f "" fs1 with
          | (Pending, fs2) => (Never, mkWorld fs2 (Some p) [spawn1; spawn2])
          | (Rejected m, fs2) =>
              (Normal tt, mkWorld fs2 (Some p) [spawn1; spawn2; internal_error m])
          | (Resolved _, fs2) =>
              (Normal tt,
               mkWorld fs2 (Some p)
                 [spawn1; spawn2;
                  Respond 200 (SuccessBody final "Video section processed successfully")])
          end
      end
  | _, _, _ => (Normal tt, mkWorld fs0 None [Respond 400 (ErrorBody "URL is required" None)])
  end.
Proof.
  unfold clip_try_catch, try_catch.
  destruct (truthy (url req)) as [u|]; [|reflexivity].
  destruct (truthy (startTime req)) as [s|]; [|reflexivity].
  destruct (truthy (endTime req)) as [e|]; [|reflexivity].
  unfold pipeline, runYtDlpDownload, bind, emit, run_process, set_tempMuxedPath. simpl.
  destruct (ytdlp_run _ _ y fetcher_init fs0) as [[|p|m] fs1] eqn:Ey; simpl; try reflexivity.
  assert (Hp : Str.nonempty p = true).
  { apply (ytdlp_resolved_nonempty uploadsDir (tempMuxedPathBase_of uploadsDir ts)
             y fetcher_init fs0). now rewrite Ey. }
  rewrite Hp. simpl.
  destruct (ffmpeg_run _ f "" fs1) as [[|[]|m] fs2]; reflexivity.
Qed.

Lemma handle_eq (uploadsDir : string) (ts : N) (req : request)
  (y f : list event) (fs0 : filesystem) :
  handle uploadsDir ts req y f fs0 =
  match clip_try_catch uploadsDir ts req y f (mkWorld fs0 None []) with
  | (Never, w) => (Never, w)
  | (c, w) => (c, snd (cleanup (finalOutputPath_of uploadsDir ts) w))
  end.
Proof.
  unfold handle, clip, finally.
  destruct (clip_try_catch _ _ _ _ _ _) as [[a|e|] w]; rewrite ?cleanup_eq; reflexivity.
Qed.

(** When the [try] and [catch] blocks end, they end normally, and they
    have sent one response, after the spawns. *)
Lemma try_catch_completed (uploadsDir : string) (ts : N) (req : request)
  (y f : list event) (fs0 : filesystem) (c : completion unit) (w : world) :
  clip_try_catch uploadsDir ts req y f (mkWorld fs0 None []) = (c, w) ->
  c <> Never ->
  c = Normal tt
  /\ exists spawns status payload,
       log w = (spawns ++ [Respond status payload])%list
       /\ forallb is_spawn spawns = true.
Proof.
  rewrite clip_try_catch_eq.
  destruct (truthy (url req)) as [u|];
    [destruct (truthy (startTime req)) as [s|];
     [destruct (truthy (endTime req)) as [e|]|]|];
    try (intros H _; inversion H; split; [reflexivity|];
         exists [], 400%N, (ErrorBody "URL is required" None); now split).
  cbv zeta.
  destruct (ytdlp_run _ _ y fetcher_init fs0) as [[|p|m] fs1].
  - intros H Hc. inversion H. subst. now elim Hc.
  - destruct (ffmpeg_run _ f "" fs1) as [[|[]|m] fs2]; intros H Hc; inversion H; subst.
    + now elim Hc.
    + split; [reflexivity|]. eexists [_; _], _, _. split; reflexivity.
    + split; [reflexivity|]. eexists [_; _], _, _. split; reflexivity.
  - intros H _. inversion H. split; [reflexivity|].
    eexists [_], _, _. split; reflexivity.
Qed.

(** C2 (amended). On every path through the handler that ends, the
    handler ends normally and its log is: the spawns, then exactly one
    response, then the unlink attempts of the cleanup, then the end of the
    cleanup.  The cleanup runs on every path, after the response has been
    sent. *)
Theorem response_precedes_cleanup (uploadsDir : string) (ts : N) (req : request)
  (y f : list event) (fs0 : filesystem) :
  fst (handle uploadsDir ts req y f fs0) <> Never ->
  fst (handle uploadsDir ts req y f fs0) = Normal tt
  /\ exists spawns status payload unlinks,
       log (snd (handle uploadsDir ts req y f fs0))
       = (spawns ++ Respond status payload :: unlinks ++ [CleanupFinished])%list
       /\ forallb is_spawn spawns = true
       /\ forallb is_unlink unlinks = true.
Proof.
  rewrite handle_eq.
  destruct (clip_try_catch _ _ _ _ _ _) as [c w] eqn:E.
  intros Hc.
  assert (Hn : c <> Never) by (destruct c; [discriminate | discriminate | exact Hc]).
  destruct (try_catch_completed _ _ _ _ _ _ _ _ E Hn) as [Hc' [sp [st [pl [Hl Hs]]]]].
  subst c. cbv beta iota. cbn [fst snd]. split; [reflexivity|].
  destruct (cleanup_log (finalOutputPath_of uploadsDir ts) w) as [l [L [Hu _]]].
  exists sp, st, pl, l. rewrite L, Hl, <- app_assoc. simpl. now repeat split.
Qed.

Lemma response_precedes_cleanup_witness :
  exists spawns status payload unlinks,
    log (snd (handle Scenario.uploads Scenario.now Scenario.good_request
                Scenario.download_ok Scenario.remux_ok Scenario.disk))
    = (spawns ++ Respond status payload :: unlinks ++ [CleanupFinished])%list
    /\ forallb is_spawn spawns = true
    /\ forallb is_unlink unlinks = true.
Proof.
  refine (proj2 (response_precedes_cleanup Scenario.uploads Scenario.now
                   Scenario.good_request Scenario.download_ok Scenario.remux_ok
                   Scenario.disk _)).
  vm_compute. discriminate.
Defined.

(** C2, as stated, fails: on the success path the response is sent
    before the intermediate file is unlinked and the cleanup finishes; no
    response follows the end of the cleanup. *)
Lemma cleanup_before_response_fails :
  log (snd (handle Scenario.uploads Scenario.now Scenario.good_request
              Scenario.download_ok Scenario.remux_ok Scenario.disk))
  = [ Spawn "yt-dlp"
        (ytdlp_args "https://video.example/watch?id=42"
           "/srv/backend/uploads/temp-muxed-1700000000000" "00:00:10" "00:00:20");
      Spawn "ffmpeg" (ffmpeg_args Scenario.temp_mp4 Scenario.clip_mp4);
      Respond 200 (SuccessBody Scenario.clip_mp4 "Video section processed successfully");
      Unlinked Scenario.temp_mp4;
      CleanupFinished ]
  /\ cleanup_before_response
       (log (snd (handle Scenario.uploads Scenario.now Scenario.good_request
                    Scenario.download_ok Scenario.remux_ok Scenario.disk))) = false.
Proof.
  split; vm_compute; reflexivity.
Qed.

Lemma append_not_self (s t : string) : t <> "" -> s ++ t <> s.
Proof.
  intros Ht. induction s as [|a s IH]; simpl.
  - exact Ht.
  - intros H. inversion H. now apply IH.
Qed.

Lemma missing_field_false (req : request) :
  missing_field req = false ->
  exists u s e, truthy (url req) = Some u /\ truthy (startTime req) = Some s
                /\ truthy (endTime req) = Some e.
Proof.
  unfold missing_field.
  destruct (truthy (url req)) as [u|]; [|discriminate].
  destruct (truthy (startTime req)) as [s|]; [|discriminate].
  destruct (truthy (endTime req)) as [e|]; [|discriminate].
  intros _. now exists u, s, e.
Qed.

Lemma ytdlp_run_fs (uploadsDir base : string) (tr : list event) (st : fetcher)
  (fs : filesystem) :
  snd (ytdlp_run uploadsDir base tr st fs) = fs_at_settle tr fs.
Proof. now rewrite ytdlp_run_settle. Qed.

(** C5. Orchestrator, failed download.  When the promise of the download
    is rejected (exit code other than 0, failure to start, or exit code 0
    with no file found), the handler answers at once with status 500 and
    the message of the rejection; the only process it spawns is yt-dlp;
    the behaviour of the transcode process plays no part; and the entry at
    [finalOutputPath] is as the download process left it. *)
Theorem download_failure_skips_remux (uploadsDir : string) (ts : N) (req : request)
  (y f : list event) (fs0 : filesystem) (m : string) :
  missing_field req = false ->
  fst (ytdlp_run uploadsDir (tempMuxedPathBase_of uploadsDir ts) y fetcher_init fs0)
  = Rejected m ->
  let r := handle uploadsDir ts req y f fs0 in
  let final := finalOutputPath_of uploadsDir ts in
  fst r = Normal tt
  /\ (exists args unlinks,
        log (snd r)
        = (Spawn "yt-dlp" args
           :: Respond 500 (ErrorBody "Failed to process video section" (Some m))
           :: unlinks ++ [CleanupFinished])%list
        /\ forallb is_unlink unlinks = true)
  /\ (forall args, ~ In (Spawn "ffmpeg" args) (log (snd r)))
  /\ Fs.lookup final (entries (fs (snd r))) = Fs.lookup final (entries (fs_at_settle y fs0))
  /\ (forall f', handle uploadsDir ts req y f' fs0 = r).
Proof.
  intros Hreq Hy r final.
  destruct (missing_field_false req Hreq) as [u [s [e [Hu [Hs He]]]]].
  assert (E : forall f', handle uploadsDir ts req y f' fs0 =
              (Normal tt,
               snd (cleanup final
                      (mkWorld (fs_at_settle y fs0) None
                         [Spawn "yt-dlp" (ytdlp_args u (tempMuxedPathBase_of uploadsDir ts) s e);
                          internal_error m])))).
  { intros f'. rewrite handle_eq, clip_try_catch_eq, Hu, Hs, He. cbv zeta.
    pose proof (ytdlp_run_fs uploadsDir (tempMuxedPathBase_of uploadsDir ts) y fetcher_init fs0) as Hf.
    destruct (ytdlp_run _ _ y fetcher_init fs0) as [pr fs1].
    simpl in Hy, Hf. subst pr fs1. reflexivity. }
  unfold r. rewrite (E f). cbn [fst snd].
  set (w1 := mkWorld _ _ _).
  destruct (cleanup_log final w1) as [l [L [Hl Ha]]].
  split; [reflexivity|]. split; [|split; [|split]].
  - eexists _, l. split; [exact L | exact Hl].
  - intros args Hin. rewrite L in Hin. simpl in Hin.
    destruct Hin as [H|[H|H]]; try discriminate.
    apply in_app_or in H. destruct H as [H|[H|[]]]; [|discriminate].
    rewrite forallb_forall in Hl. apply Hl in H. discriminate.
  - rewrite cleanup_eq. cbv zeta. cbn [snd fs].
    destruct (fold_unlink_lookup (cleanup_targets (fs w1) (tempMuxedPath w1) final) w1 final)
      as [H|[Hin _]]; [exact H|].
    apply in_cleanup_targets in Hin. destruct Hin as [[Ht _]|[Hp _]]; [discriminate Ht|].
    symmetry in Hp. apply append_not_self in Hp; [contradiction | discriminate].
  - intros f'. now rewrite (E f').
Qed.

Lemma download_failure_skips_remux_witness :
  log (snd (handle Scenario.uploads Scenario.now Scenario.good_request
              Scenario.download_fails Scenario.remux_ok Scenario.disk))
  = [ Spawn "yt-dlp"
        (ytdlp_args "https://video.example/watch?id=42"
           "/srv/backend/uploads/temp-muxed-1700000000000" "00:00:10" "00:00:20");
      Respond 500
        (ErrorBody "Failed to process video section"
           (Some "yt-dlp download (muxed) failed with code 1. Stderr: ERROR: unable to download video data"));
      CleanupFinished ]
  /\ Fs.lookup Scenario.clip_mp4
       (entries (fs (snd (handle Scenario.uploads Scenario.now Scenario.good_request
                            Scenario.download_fails Scenario.remux_ok Scenario.disk))))
     = None.
Proof.
  pose proof (download_failure_skips_remux Scenario.uploads Scenario.now
                Scenario.good_request Scenario.download_fails Scenario.remux_ok
                Scenario.disk _ eq_refl eq_refl) as H.
  destruct H as [_ [_ [_ [H _]]]].
  split; [vm_compute; reflexivity | exact H].
Defined.

(** The path kept in [tempMuxedPath] is never empty. *)
Lemma try_catch_temp_nonempty (uploadsDir : string) (ts : N) (req : request)
  (y f : list event) (fs0 : filesystem) (p : string) :
  tempMuxedPath (snd (clip_try_catch uploadsDir ts req y f (mkWorld fs0 None []))) = Some p ->
  Str.nonempty p = true.
Proof.
  rewrite clip_try_catch_eq.
  destruct (truthy (url req)) as [u|]; [|discriminate].
  destruct (truthy (startTime req)) as [s|]; [|discriminate].
  destruct (truthy (endTime req)) as [e|]; [|discriminate].
  cbv zeta.
  destruct (ytdlp_run _ _ y fetcher_init fs0) as [[|q|m] fs1] eqn:Ey; try discriminate.
  assert (Hq : Str.nonempty q = true).
  { apply (ytdlp_resolved_nonempty uploadsDir (tempMuxedPathBase_of uploadsDir ts)
             y fetcher_init fs0). now rewrite Ey. }
  destruct (ffmpeg_run _ f "" fs1) as [[|[]|m] fs2]; simpl; intros H; inversion H; now subst.
Qed.

(** C1 (amended). After a request that completes, the path the download
    resolved to (if any) and [finalOutputPath + ".part"] are gone, unless
    the path is a directory or the operating system refuses its removal.
    The cleanup removes nothing else: every other path, the other files
    named [temp-muxed-<timestamp>...] among them, is as the [try] and
    [catch] blocks left it. *)
Theorem cleanup_removes_resolved_and_part (uploadsDir : string) (ts : N)
  (req : request) (y f : list event) (fs0 : filesystem) :
  fst (handle uploadsDir ts req y f fs0) <> Never ->
  let before := snd (clip_try_catch uploadsDir ts req y f (mkWorld fs0 None [])) in
  let w := snd (handle uploadsDir ts req y f fs0) in
  let part := finalOutputPath_of uploadsDir ts ++ ".part" in
  (forall p, tempMuxedPath w = Some p \/ p = part ->
     Fs.lookup p (entries (fs w)) = None
     \/ (exists s, Fs.lookup p (entries (fs w)) = Some (Dir s))
     \/ Fs.mem p (undeletable (fs w)) = true)
  /\ (forall q, tempMuxedPath w <> Some q -> q <> part ->
        Fs.lookup q (entries (fs w)) = Fs.lookup q (entries (fs before))).
Proof.
  intros Hc before w part.
  set (final := finalOutputPath_of uploadsDir ts) in *.
  set (ps := cleanup_targets (fs before) (tempMuxedPath before) final).
  assert (W : w = snd (cleanup final before)).
  { unfold w, before. rewrite handle_eq in Hc |- *.
    destruct (clip_try_catch _ _ _ _ _ _) as [[a|e|] w1]; try reflexivity.
    now elim Hc. }
  assert (F : fs w = fs (fold_left unlink_caught ps before)).
  { rewrite W, cleanup_eq. reflexivity. }
  assert (T : tempMuxedPath w = tempMuxedPath before).
  { rewrite W, cleanup_eq. cbv zeta. cbn [snd tempMuxedPath]. apply fold_unlink_temp. }
  split.
  - intros p Hp. apply unlink_none. rewrite F.
    apply fold_unlink_stuck.
    destruct (Fs.existsSync (fs before) p) eqn:Ex.
    + left. apply in_cleanup_targets. destruct Hp as [Hp|Hp].
      * left. rewrite T in Hp. repeat split; auto.
        now apply (try_catch_temp_nonempty uploadsDir ts req y f fs0).
      * right. now split.
    + right. apply unlink_none. left. unfold Fs.existsSync in Ex.
      destruct (Fs.lookup p (entries (fs before))); [discriminate | reflexivity].
  - intros q Hq Hpart. rewrite F.
    destruct (fold_unlink_lookup ps before q) as [H|[Hin _]]; [exact H|].
    apply in_cleanup_targets in Hin. rewrite <- T in Hin.
    destruct Hin as [[Ht _]|[Hp _]]; contradiction.
Qed.

Lemma cleanup_removes_resolved_and_part_witness :
  Fs.lookup Scenario.temp_mp4
    (entries (fs (snd (handle Scenario.uploads Scenario.now Scenario.good_request
                         Scenario.download_ok Scenario.remux_ok Scenario.disk))))
  = None
  \/ (exists s,
        Fs.lookup Scenario.temp_mp4
          (entries (fs (snd (handle Scenario.uploads Scenario.now Scenario.good_request
                               Scenario.download_ok Scenario.remux_ok Scenario.disk))))
        = Some (Dir s))
  \/ Fs.mem Scenario.temp_mp4
       (undeletable (fs (snd (handle Scenario.uploads Scenario.now Scenario.good_request
                                Scenario.download_ok Scenario.remux_ok Scenario.disk))))
     = true.
Proof.
  refine (proj1 (cleanup_removes_resolved_and_part Scenario.uploads Scenario.now
                   Scenario.good_request Scenario.download_ok Scenario.remux_ok
                   Scenario.disk _) Scenario.temp_mp4 _).
  - vm_compute. discriminate.
  - left. reflexivity.
Defined.

(** C1, as stated, fails: a download that exits with code 1 after it
    created a partial file under the uploads directory, with a name that
    starts with [temp-muxed-<timestamp>], leaves that file behind; the
    request completes and the file is still there. *)
Lemma intermediate_left_behind :
  Fs.existsSync Scenario.disk Scenario.temp_part = false
  /\ fst (handle Scenario.uploads Scenario.now Scenario.good_request
            Scenario.download_fails Scenario.remux_ok Scenario.disk) = Normal tt
  /\ Fs.existsSync
       (fs (snd (handle Scenario.uploads Scenario.now Scenario.good_request
                   Scenario.download_fails Scenario.remux_ok Scenario.disk)))
       Scenario.temp_part = true
  /\ no_intermediate_left Scenario.uploads Scenario.now
       (fs (snd (handle Scenario.uploads Scenario.now Scenario.good_request
                   Scenario.download_fails Scenario.remux_ok Scenario.disk))) = false.
Proof.
  repeat split; vm_compute; reflexivity.
Qed.

(** The [finally] block adds to the log of the [try] and [catch] blocks
    and sends no response. *)
Lemma handle_log (uploadsDir : string) (ts : N) (req : request)
  (y f : list event) (fs0 : filesystem) :
  exists rest,
    log (snd (handle uploadsDir ts req y f fs0))
    = (log (snd (clip_try_catch uploadsDir ts req y f (mkWorld fs0 None []))) ++ rest)%list
    /\ responses rest = [].
Proof.
  rewrite handle_eq.
  destruct (clip_try_catch _ _ _ _ _ _) as [c w].
  destruct (cleanup_log (finalOutputPath_of uploadsDir ts) w) as [l [L [Hu _]]].
  assert (R : responses (l ++ [CleanupFinished]) = []).
  { now rewrite responses_app, (responses_unlinks l Hu). }
  destruct c as [a|e|]; cbn [snd].
  - exists (l ++ [CleanupFinished])%list. now split.
  - exists (l ++ [CleanupFinished])%list. now split.
  - exists []. now rewrite app_nil_r.
Qed.

Lemma truthy_none (v : option string) : truthy v = None <-> absent_or_empty v.
Proof.
  unfold truthy, absent_or_empty. destruct v as [[|a s]|]; simpl; split; intros H;
    auto; try discriminate; destruct H; discriminate.
Qed.

Lemma missing_field_true (req : request) :
  missing_field req = true <->
  absent_or_empty (url req) \/ absent_or_empty (startTime req)
  \/ absent_or_empty (endTime req).
Proof.
  rewrite <- !truthy_none. unfold missing_field.
  destruct (truthy (url req)), (truthy (startTime req)), (truthy (endTime req));
    split; intros H; auto; try discriminate;
    destruct H as [H|[H|H]]; discriminate.
Qed.

(** C8. Input validation.  A request in which [url], [startTime] or
    [endTime] is absent or empty is answered at once with status 400 and
    the error [URL is required]; no process is spawned and no path exists
    afterwards that did not exist before.  A request with the three
    fields present starts the download with the two time strings put into
    the section argument as they are, whatever they are, and is never
    answered with status 400. *)
Theorem missing_field_rejected (uploadsDir : string) (ts : N) (req : request)
  (y f : list event) (fs0 : filesystem) :
  let r := handle uploadsDir ts req y f fs0 in
  (absent_or_empty (url req) \/ absent_or_empty (startTime req)
   \/ absent_or_empty (endTime req) ->
   fst r = Normal tt
   /\ (exists unlinks,
         log (snd r)
         = (Respond 400 (ErrorBody "URL is required" None)
            :: unlinks ++ [CleanupFinished])%list
         /\ forallb is_unlink unlinks = true)
   /\ (forall cmd args, ~ In (Spawn cmd args) (log (snd r)))
   /\ (forall p n, Fs.lookup p (entries (fs (snd r))) = Some n ->
                   Fs.lookup p (entries fs0) = Some n))
  /\ (forall u s e,
        url req = Some u -> startTime req = Some s -> endTime req = Some e ->
        u <> "" -> s <> "" -> e <> "" ->
        (exists rest,
           log (snd r)
           = Spawn "yt-dlp" (ytdlp_args u (tempMuxedPathBase_of uploadsDir ts) s e) :: rest)
        /\ nth_error (ytdlp_args u (tempMuxedPathBase_of uploadsDir ts) s e) 4
           = Some ("*" ++ s ++ "-" ++ e)
        /\ (forall payload, ~ In (400%N, payload) (responses (log (snd r))))).
Proof.
  intros r. split.
  - intros Hm. apply missing_field_true in Hm.
    set (final := finalOutputPath_of uploadsDir ts).
    set (w1 := mkWorld fs0 None [Respond 400 (ErrorBody "URL is required" None)]).
    assert (E : r = (Normal tt, snd (cleanup final w1))).
    { unfold r. rewrite handle_eq, clip_try_catch_eq. unfold missing_field in Hm.
      destruct (truthy (url req)); [|reflexivity].
      destruct (truthy (startTime req)); [|reflexivity].
      destruct (truthy (endTime req)); [discriminate | reflexivity]. }
    rewrite E. cbn [fst snd].
    destruct (cleanup_log final w1) as [l [L [Hu _]]].
    split; [reflexivity|]. split; [|split].
    + exists l. now split.
    + intros cmd args Hin. rewrite L in Hin. simpl in Hin.
      destruct Hin as [H|H]; [discriminate|].
      apply in_app_or in H. destruct H as [H|[H|[]]]; [|discriminate].
      rewrite forallb_forall in Hu. apply Hu in H. discriminate.
    + intros p n. rewrite cleanup_eq. cbv zeta. cbn [snd fs].
      destruct (fold_unlink_lookup (cleanup_targets (fs w1) (tempMuxedPath w1) final) w1 p)
        as [H|[_ H]]; rewrite H; [tauto | discriminate].
  - intros u s e Hu Hs He Hun Hsn Hen.
    assert (Tu : truthy (url req) = Some u).
    { rewrite Hu. unfold truthy. apply nonempty_true in Hun. now rewrite Hun. }
    assert (Ts : truthy (startTime req) = Some s).
    { rewrite Hs. unfold truthy. apply nonempty_true in Hsn. now rewrite Hsn. }
    assert (Te : truthy (endTime req) = Some e).
    { rewrite He. unfold truthy. apply nonempty_true in Hen. now rewrite Hen. }
    destruct (handle_log uploadsDir ts req y f fs0) as [rest [L R]].
    fold r in L. rewrite L, responses_app, R, app_nil_r.
    rewrite clip_try_catch_eq, Tu, Ts, Te. cbv zeta.
    split; [|split; [reflexivity|]].
    + destruct (ytdlp_run _ _ y fetcher_init fs0) as [[|p|m] fs1]; cbn [snd log].
      * eexists. reflexivity.
      * destruct (ffmpeg_run _ f "" fs1) as [[|[]|m] fs2]; eexists; reflexivity.
      * eexists. reflexivity.
    + intros payload.
      destruct (ytdlp_run _ _ y fetcher_init fs0) as [[|p|m] fs1]; cbn [snd log].
      * intros [].
      * destruct (ffmpeg_run _ f "" fs1) as [[|[]|m] fs2]; simpl;
          intros H; try contradiction; destruct H as [H|[]]; discriminate.
      * simpl. intros [H|[]]. discriminate.
Qed.

Lemma missing_field_rejected_witness :
  (exists unlinks,
     log (snd (handle Scenario.uploads Scenario.now Scenario.no_start_request
                 Scenario.download_ok Scenario.remux_ok Scenario.disk))
     = (Respond 400 (ErrorBody "URL is required" None) :: unlinks ++ [CleanupFinished])%list
     /\ forallb is_unlink unlinks = true)
  /\ (exists rest,
        log (snd (handle Scenario.uploads Scenario.now
                    (mkRequest (Some "https://video.example/watch?id=42")
                               (Some "not a time") (Some "??"))
                    Scenario.download_ok Scenario.remux_ok Scenario.disk))
        = Spawn "yt-dlp"
            (ytdlp_args "https://video.example/watch?id=42"
               (tempMuxedPathBase_of Scenario.uploads Scenario.now) "not a time" "??")
          :: rest).
Proof.
  split.
  - refine (proj1 (proj2 (proj1 (missing_field_rejected Scenario.uploads Scenario.now
                                   Scenario.no_start_request Scenario.download_ok
                                   Scenario.remux_ok Scenario.disk) _))).
    right. left. left. reflexivity.
  - refine (proj1 (proj2 (missing_field_rejected Scenario.uploads Scenario.now
                            (mkRequest (Some "https://video.example/watch?id=42")
                                       (Some "not a time") (Some "??"))
                            Scenario.download_ok Scenario.remux_ok Scenario.disk)
                     _ _ _ eq_refl eq_refl eq_refl _ _ _));
      discriminate.
Defined.

(** The end of the handler and the responses it has sent, read off the
    two promises. *)
Lemma handle_answer (uploadsDir : string) (ts : N) (req : request)
  (y f : list event) (fs0 : filesystem) :
  let final := finalOutputPath_of uploadsDir ts in
  (fst (handle uploadsDir ts req y f fs0),
   responses (log (snd (handle uploadsDir ts req y f fs0)))) =
  if missing_field req then
    (Normal tt, [(400%N, ErrorBody "URL is required" None)])
  else
    match fst (ytdlp_run uploadsDir (tempMuxedPathBase_of uploadsDir ts) y fetcher_init fs0)
    with
    | Pending => (Never, [])
    | Rejected m =>
        (Normal tt, [(500%N, ErrorBody "Failed to process video section" (Some m))])
    | Resolved _ =>
        match fst (ffmpeg_run final f "" (fs_at_settle y fs0)) with
        | Pending => (Never, [])
        | Rejected m =>
            (Normal tt, [(500%N, ErrorBody "Failed to process video section" (Some m))])
        | Resolved _ =>
            (Normal tt,
             [(200%N, SuccessBody final "Video section processed successfully")])
        end
    end.
Proof.
  intros final.
  destruct (handle_log uploadsDir ts req y f fs0) as [rest [L R]].
  rewrite L, responses_app, R, app_nil_r. clear L R rest.
  assert (F : fst (handle uploadsDir ts req y f fs0)
              = fst (clip_try_catch uploadsDir ts req y f (mkWorld fs0 None []))).
  { rewrite handle_eq. now destruct (clip_try_catch _ _ _ _ _ _) as [[a|e|] w]. }
  rewrite F, clip_try_catch_eq. unfold missing_field.
  destruct (truthy (url req)) as [u|]; [|reflexivity].
  destruct (truthy (startTime req)) as [s|]; [|reflexivity].
  destruct (truthy (endTime req)) as [e|]; [|reflexivity].
  cbv zeta. fold final.
  pose proof (ytdlp_run_fs uploadsDir (tempMuxedPathBase_of uploadsDir ts) y fetcher_init fs0)
    as Hf.
  destruct (ytdlp_run _ _ y fetcher_init fs0) as [[|p|m] fs1]; cbn [fst snd] in *;
    try reflexivity.
  subst fs1.
  destruct (ffmpeg_run final f "" (fs_at_settle y fs0)) as [[|[]|m] fs2]; reflexivity.
Qed.

(** C10. Responses.  With a field missing, whichever it is, the handler
    ends and its one answer is status 400 with the error
    [URL is required].  With the three fields present: when the promise of
    the download is rejected, and when it is fulfilled and the promise of
    the remux is rejected, the handler ends and its one answer is status
    500 with the error [Failed to process video section] and, as details,
    the message of the rejection; when both promises are fulfilled the one
    answer is the success body.  No other response is ever sent.  The
    handler is its [catch] and [finally] blocks around its [try] block,
    and around any [try] block that throws they answer with status 500,
    the same error and the message thrown as details. *)
Theorem failure_responses (uploadsDir : string) (ts : N) (req : request)
  (y f : list event) (fs0 : filesystem) :
  let r := handle uploadsDir ts req y f fs0 in
  let base := tempMuxedPathBase_of uploadsDir ts in
  let final := finalOutputPath_of uploadsDir ts in
  let download := fst (ytdlp_run uploadsDir base y fetcher_init fs0) in
  let remux := fst (ffmpeg_run final f "" (fs_at_settle y fs0)) in
  let answer := responses (log (snd r)) in
  let missing :=
    absent_or_empty (url req) \/ absent_or_empty (startTime req)
    \/ absent_or_empty (endTime req) in
  let internal := fun m =>
    (500%N, ErrorBody "Failed to process video section" (Some m)) in
  (missing ->
   fst r = Normal tt /\ answer = [(400%N, ErrorBody "URL is required" None)])
  /\ (~ missing -> forall m,
        download = Rejected m ->
        fst r = Normal tt /\ answer = [internal m])
  /\ (~ missing -> forall p m,
        download = Resolved p -> remux = Rejected m ->
        fst r = Normal tt /\ answer = [internal m])
  /\ (~ missing -> forall p,
        download = Resolved p -> remux = Resolved tt ->
        fst r = Normal tt
        /\ answer = [(200%N, SuccessBody final "Video section processed successfully")])
  /\ (forall status payload,
        In (status, payload) answer ->
        (status = 400%N /\ payload = ErrorBody "URL is required" None /\ missing)
        \/ (status = 500%N /\ ~ missing
            /\ exists m, payload = ErrorBody "Failed to process video section" (Some m)
                         /\ (download = Rejected m
                             \/ ((exists p, download = Resolved p) /\ remux = Rejected m)))
        \/ (status = 200%N /\ ~ missing
            /\ payload = SuccessBody final "Video section processed successfully"
            /\ (exists p, download = Resolved p) /\ remux = Resolved tt))
  /\ clip uploadsDir ts req y f = clip_with (try_block uploadsDir ts req y f) final
  /\ (forall (body : M unit) (w0 w' : world) (e : string),
        body w0 = (Throw e, w') ->
        fst (clip_with body final w0) = Normal tt
        /\ responses (log (snd (clip_with body final w0)))
           = (responses (log w') ++ [internal e])%list).
Proof.
  intros r base final download remux answer missing internal.
  pose proof (handle_answer uploadsDir ts req y f fs0) as A. cbv zeta in A.
  fold r final base in A. fold download remux answer in A.
  pose proof (missing_field_true req) as M. fold missing in M.
  assert (Mf : ~ missing -> missing_field req = false).
  { intros H. destruct (missing_field req); [|reflexivity]. elim H. now apply M. }
  assert (Nm : missing_field req = false -> ~ missing).
  { intros H K. apply M in K. congruence. }
  split; [|split; [|split; [|split; [|split; [|split]]]]].
  - intros H. apply M in H. rewrite H in A. inversion A. now split.
  - intros H m Hd. rewrite (Mf H), Hd in A. inversion A. now split.
  - intros H p m Hd Hr. rewrite (Mf H), Hd, Hr in A. inversion A. now split.
  - intros H p Hd Hr. rewrite (Mf H), Hd, Hr in A. inversion A. now split.
  - intros status payload Hin.
    destruct (missing_field req) eqn:E.
    + apply pair_equal_spec in A. destruct A as [_ A2].
      rewrite A2 in Hin. simpl in Hin. destruct Hin as [K|K]; [|destruct K].
      inversion K. left. repeat split. now apply M.
    + specialize (Nm eq_refl).
      destruct download as [|p|m] eqn:Hd.
      * apply pair_equal_spec in A. destruct A as [_ A2].
        rewrite A2 in Hin. destruct Hin.
      * destruct remux as [|[]|m] eqn:Hr;
          apply pair_equal_spec in A; destruct A as [_ A2];
          rewrite A2 in Hin; simpl in Hin; try contradiction;
          (destruct Hin as [K|K]; [|destruct K]); inversion K.
        -- right. right. repeat split; auto. now exists p.
        -- right. left. split; [reflexivity|]. split; [exact Nm|].
           exists m. split; [reflexivity|]. right. split; [now exists p | reflexivity].
      * apply pair_equal_spec in A. destruct A as [_ A2].
        rewrite A2 in Hin. simpl in Hin. destruct Hin as [K|K]; [|destruct K].
        inversion K. right. left. split; [reflexivity|]. split; [exact Nm|].
        exists m. split; [reflexivity|]. now left.
  - reflexivity.
  - intros body w0 w' e Hb.
    set (w1 := mkWorld (fs w') (tempMuxedPath w') (log w' ++ [internal_error e])%list).
    assert (T : try_catch body catch_block w0 = (Normal tt, w1)).
    { unfold try_catch. rewrite Hb. reflexivity. }
    assert (C : clip_with body final w0 = (Normal tt, snd (cleanup final w1))).
    { unfold clip_with, finally. rewrite T, cleanup_eq. reflexivity. }
    rewrite C. cbn [fst snd]. split; [reflexivity|].
    destruct (cleanup_log final w1) as [l [L [Hu _]]].
    rewrite L, !responses_app, (responses_unlinks l Hu).
    unfold w1. cbn [log]. rewrite responses_app.
    unfold internal_error, internal. cbn [responses]. now rewrite !app_nil_r.
Qed.

Lemma failure_responses_witness :
  responses (log (snd (handle Scenario.uploads Scenario.now Scenario.no_start_request
                         Scenario.download_ok Scenario.remux_ok Scenario.disk)))
  = [(400%N, ErrorBody "URL is required" None)]
  /\ responses (log (snd (handle Scenario.uploads Scenario.now Scenario.good_request
                            Scenario.download_fails Scenario.remux_ok Scenario.disk)))
     = [(500%N, ErrorBody "Failed to process video section"
                  (Some "yt-dlp download (muxed) failed with code 1. Stderr: ERROR: unable to download video data"))]
  /\ responses (log (snd (handle Scenario.uploads Scenario.now Scenario.good_request
                            Scenario.download_ok Scenario.remux_empty Scenario.disk)))
     = [(500%N, ErrorBody "Failed to process video section"
                  (Some "FFmpeg remux failed: Output file missing or empty. Stderr: "))]
  /\ responses
       (log (snd (clip_with (throw "Cannot destructure property 'url' of 'req.body'")
                    Scenario.clip_mp4 (mkWorld Scenario.disk None []))))
     = [(500%N, ErrorBody "Failed to process video section"
                  (Some "Cannot destructure property 'url' of 'req.body'"))].
Proof.
  split; [|split; [|split]].
  - refine (proj2 (proj1 (failure_responses Scenario.uploads Scenario.now
                            Scenario.no_start_request Scenario.download_ok
                            Scenario.remux_ok Scenario.disk) _)).
    right. left. left. reflexivity.
  - refine (proj2 (proj1 (proj2 (failure_responses Scenario.uploads Scenario.now
                                   Scenario.good_request Scenario.download_fails
                                   Scenario.remux_ok Scenario.disk)) _ _ eq_refl)).
    intros [[H|H]|[[H|H]|[H|H]]]; discriminate H.
  - refine (proj2 (proj1 (proj2 (proj2 (failure_responses Scenario.uploads Scenario.now
                                          Scenario.good_request Scenario.download_ok
                                          Scenario.remux_empty Scenario.disk)))
                     _ Scenario.temp_mp4 _ eq_refl eq_refl)).
    intros [[H|H]|[[H|H]|[H|H]]]; discriminate H.
  - pose proof (failure_responses Scenario.uploads Scenario.now Scenario.good_request
                  Scenario.download_ok Scenario.remux_ok Scenario.disk) as H.
    destruct H as [_ [_ [_ [_ [_ [_ H]]]]]].
    exact (proj2 (H (throw "Cannot destructure property 'url' of 'req.body'")
                    (mkWorld Scenario.disk None []) (mkWorld Scenario.disk None [])
                    "Cannot destructure property 'url' of 'req.body'" eq_refl)).
Defined.

(** ** Termination *)

(** A promise stays pending exactly when its process never closes and
    never fails to start. *)
Lemma ytdlp_pending (uploadsDir base : string) (tr : list event) (fs : filesystem) :
  fst (ytdlp_run uploadsDir base tr fetcher_init fs) = Pending <-> settle tr = None.
Proof.
  rewrite ytdlp_run_settle. cbn [fst].
  destruct (settle tr) as [[code|m]|]; split; intros H; try discriminate; try reflexivity.
  unfold ytdlp_on_close in H.
  destruct (code_is_zero code); [|discriminate].
  destruct (detected_exists _ _); [discriminate|].
  destruct (search_uploads _ _ _); discriminate.
Qed.

Lemma ffmpeg_pending (final : string) (tr : list event) (fs : filesystem) :
  fst (ffmpeg_run final tr "" fs) = Pending <-> settle tr = None.
Proof.
  rewrite ffmpeg_run_settle. cbn [fst].
  destruct (settle tr) as [[code|m]|]; split; intros H; try discriminate; try reflexivity.
  unfold ffmpeg_on_close in H.
  destruct (code_is_zero code); [|discriminate].
  destruct (final_nonempty _ _); discriminate.
Qed.

(** The handler ends, and then it ends normally, unless it waits for a
    process that never finishes: the download, or the remux after a
    download that succeeded. *)
Lemma handle_completes (uploadsDir : string) (ts : N) (req : request)
  (y f : list event) (fs0 : filesystem) :
  let download :=
    fst (ytdlp_run uploadsDir (tempMuxedPathBase_of uploadsDir ts) y fetcher_init fs0) in
  fst (handle uploadsDir ts req y f fs0) = Normal tt <->
  missing_field req = true
  \/ (exists m, download = Rejected m)
  \/ ((exists p, download = Resolved p) /\ settle f <> None).
Proof.
  intros download. unfold download.
  rewrite handle_eq, clip_try_catch_eq. unfold missing_field.
  destruct (truthy (url req)) as [u|]; [|split; [now left | reflexivity]].
  destruct (truthy (startTime req)) as [s|]; [|split; [now left | reflexivity]].
  destruct (truthy (endTime req)) as [e|]; [|split; [now left | reflexivity]].
  cbv zeta.
  pose proof (ytdlp_run_fs uploadsDir (tempMuxedPathBase_of uploadsDir ts) y fetcher_init fs0)
    as Hf.
  destruct (ytdlp_run _ _ y fetcher_init fs0) as [[|p|m] fs1]; cbn [fst snd] in *.
  - split; [discriminate|].
    intros [H|[[m H]|[[p H] _]]]; discriminate.
  - pose proof (ffmpeg_pending (finalOutputPath_of uploadsDir ts) f fs1) as Hp.
    destruct (ffmpeg_run _ f "" fs1) as [[|[]|m] fs2]; cbn [fst snd] in *.
    + split; [discriminate|].
      intros [H|[[m H]|[_ H]]]; try discriminate. elim H. now apply Hp.
    + split; [|reflexivity]. intros _. right. right. split; [now exists p|].
      intros H. apply Hp in H. discriminate.
    + split; [|reflexivity]. intros _. right. right. split; [now exists p|].
      intros H. apply Hp in H. discriminate.
  - split; [|reflexivity]. intros _. right. left. now exists m.
Qed.

(** ** The base name of the temporary path *)

Lemma rev_acc_append (s acc : string) : Str.rev_acc s acc = Str.rev s ++ acc.
Proof.
  unfold Str.rev. revert acc; induction s as [|c s IH]; intros acc; simpl; [reflexivity|].
  rewrite IH, (IH (String c "")), append_assoc. reflexivity.
Qed.

Lemma rev_append (a b : string) : Str.rev (a ++ b) = Str.rev b ++ Str.rev a.
Proof.
  induction a as [|c a IH]; simpl.
  - now rewrite append_empty_r.
  - unfold Str.rev in *. simpl.
    rewrite (rev_acc_append (a ++ b)), (rev_acc_append a).
    unfold Str.rev. rewrite IH, append_assoc. reflexivity.
Qed.

Lemma rev_involutive (s : string) : Str.rev (Str.rev s) = s.
Proof.
  induction s as [|c s IH]; [reflexivity|].
  change (String c s) with (String c "" ++ s) at 1.
  rewrite rev_append, rev_append, IH. reflexivity.
Qed.

Lemma has_slash_append (a b : string) :
  Str.has_slash (a ++ b) = Str.has_slash a || Str.has_slash b.
Proof.
  induction a as [|c a IH]; simpl; [reflexivity|].
  now rewrite IH, orb_assoc.
Qed.

Lemma has_slash_rev (s : string) : Str.has_slash (Str.rev s) = Str.has_slash s.
Proof.
  induction s as [|c s IH]; [reflexivity|].
  change (String c s) with (String c "" ++ s).
  rewrite rev_append, !has_slash_append, IH. apply orb_comm.
Qed.

Lemma take_segment_append (a b : string) :
  Str.has_slash a = false -> Str.take_segment (a ++ String "/" b) = a.
Proof.
  induction a as [|c a IH]; intros H; [reflexivity|].
  cbn [Str.has_slash] in H. apply orb_false_iff in H. destruct H as [Hc Ha].
  cbn [append Str.take_segment]. rewrite Hc. f_equal. now apply IH.
Qed.

Lemma drop_slashes_id (s : string) : Str.has_slash s = false -> Str.drop_slashes s = s.
Proof.
  destruct s as [|c s]; simpl; [reflexivity|].
  now destruct (Str.is_slash c).
Qed.

(** The base name of a directory joined with a plain segment is the
    segment. *)
Lemma basename_join (dir name : string) :
  name <> "" -> Str.has_slash name = false ->
  Path.basename (Path.join dir name) = name.
Proof.
  intros Hn H. unfold Path.basename, Path.join.
  rewrite rev_append, rev_append, append_assoc.
  assert (Hr : Str.has_slash (Str.rev name) = false) by now rewrite has_slash_rev.
  destruct (Str.rev name) as [|c r] eqn:E.
  - elim Hn. rewrite <- (rev_involutive name), E. reflexivity.
  - cbn [Str.has_slash] in Hr. apply orb_false_iff in Hr. destruct Hr as [Hc Hr].
    change (Str.rev "/") with "/".
    cbn [append Str.drop_slashes]. rewrite Hc.
    change (String c (r ++ String "/" (Str.rev dir)))
      with (String c r ++ String "/" (Str.rev dir)).
    rewrite take_segment_append.
    + rewrite <- E. apply rev_involutive.
    + cbn [Str.has_slash]. now rewrite Hc, Hr.
Qed.

Lemma uint_no_slash (d : Decimal.uint) :
  Str.has_slash (NilEmpty.string_of_uint d) = false.
Proof.
  induction d; simpl; auto.
Qed.

Lemma of_N_no_slash (n : N) : Str.has_slash (Str.of_N n) = false.
Proof.
  unfold Str.of_N, NilZero.string_of_uint.
  destruct (N.to_uint n); try apply uint_no_slash. reflexivity.
Qed.

(** [path.basename(tempMuxedPathBase)] is [temp-muxed-<timestamp>]: the
    directory search of a request looks for the names that start with
    it. *)
Lemma basename_tempMuxedPathBase (uploadsDir : string) (ts : N) :
  Path.basename (tempMuxedPathBase_of uploadsDir ts) = "temp-muxed-" ++ Str.of_N ts.
Proof.
  unfold tempMuxedPathBase_of. apply basename_join; [discriminate|].
  rewrite has_slash_append, of_N_no_slash. reflexivity.
Qed.

(** * Further properties *)

(** ** Prefixes *)

Lemma prefix_append (a r : string) : String.prefix a (a ++ r) = true.
Proof.
  induction a as [|c a IH]; simpl.
  - now destruct r.
  - destruct (ascii_dec c c) as [_|N]; [exact IH | now elim N].
Qed.

Lemma prefix_split (a b : string) :
  String.prefix a b = true -> exists r, b = a ++ r.
Proof.
  revert b; induction a as [|c a IH]; intros b H.
  - now exists b.
  - destruct b as [|d b]; simpl in H; [discriminate|].
    destruct (ascii_dec c d) as [E|_]; [|discriminate].
    subst d. destruct (IH b H) as [r Hr]. exists r. simpl. now rewrite Hr.
Qed.

Lemma prefix_cancel (a x y : string) :
  String.prefix (a ++ x) (a ++ y) = String.prefix x y.
Proof.
  induction a as [|c a IH]; simpl; [reflexivity|].
  destruct (ascii_dec c c) as [_|N]; [exact IH | now elim N].
Qed.

Lemma prefix_refl_eq (a b : string) :
  String.prefix a b = true -> String.length a = String.length b -> a = b.
Proof.
  revert b; induction a as [|c a IH]; intros b H L.
  - destruct b; [reflexivity | discriminate L].
  - destruct b as [|d b]; [discriminate L|]. simpl in H.
    destruct (ascii_dec c d) as [E|_]; [|discriminate].
    subst d. f_equal. apply IH; [exact H | now inversion L].
Qed.

(** ** What the download resolves to *)

Lemma search_uploads_shape (uploadsDir base : string) (fs : filesystem) (q : string) :
  search_uploads uploadsDir fs base = Some q ->
  exists f, q = Path.join uploadsDir f
            /\ Str.startsWith f (Path.basename base) = true.
Proof.
  unfold search_uploads.
  destruct (Fs.readdirSync fs uploadsDir) as [files|]; [|discriminate].
  destruct (find _ files) as [f|] eqn:Hf; [|discriminate].
  destruct (Str.nonempty f); [|discriminate].
  destruct (Fs.existsSync fs (Path.join uploadsDir f)); [|discriminate].
  intros H. inversion H. exists f. split; [reflexivity|].
  apply find_some in Hf. exact (proj2 Hf).
Qed.

(** The two ways in which the promise of the download is fulfilled. *)
Lemma ytdlp_resolved_cases (uploadsDir base : string) (tr : list event)
  (fs : filesystem) (p : string) :
  fst (ytdlp_run uploadsDir base tr fetcher_init fs) = Resolved p ->
  settle tr = Some (Closed (Some 0%Z))
  /\ (detected_exists (fs_at_settle tr fs) (fetcher_at_settle base tr fetcher_init) = Some p
      \/ search_uploads uploadsDir (fs_at_settle tr fs) base = Some p).
Proof.
  rewrite ytdlp_run_settle. cbn [fst].
  destruct (settle tr) as [[code|m]|]; try discriminate.
  unfold ytdlp_on_close. destruct (code_is_zero code) eqn:Hc; [|discriminate].
  apply code_is_zero_true in Hc. subst code.
  destruct (detected_exists _ _) as [q|].
  - intros H. inversion H. split; [reflexivity | now left].
  - destruct (search_uploads _ _ _) as [q|]; [|discriminate].
    intros H. inversion H. split; [reflexivity | now right].
Qed.

Lemma detected_exists_some (fs : filesystem) (st : fetcher) (p : string) :
  detected_exists fs st = Some p ->
  detectedPath st = Some p /\ Str.nonempty p = true /\ Fs.existsSync fs p = true.
Proof.
  unfold detected_exists. destruct (detectedPath st) as [q|]; [|discriminate].
  destruct (Str.nonempty q) eqn:Hn; simpl; [|discriminate].
  destruct (Fs.existsSync fs q) eqn:He; [|discriminate].
  intros H. inversion H. subst q. now repeat split.
Qed.

(** X1. Segment Fetcher.  The promise of the download is fulfilled only
    by a ['close'] with exit code 0 that comes before any ['error'], and
    only with a non-empty path that exists at that moment. *)
Theorem fetcher_resolves_existing (uploadsDir base : string) (tr : list event)
  (fs : filesystem) (p : string) :
  fst (ytdlp_run uploadsDir base tr fetcher_init fs) = Resolved p ->
  settle tr = Some (Closed (Some 0%Z))
  /\ p <> ""
  /\ Fs.existsSync (fs_at_settle tr fs) p = true.
Proof.
  intros H. destruct (ytdlp_resolved_cases _ _ _ _ _ H) as [Hs [Hd|Hq]].
  - destruct (detected_exists_some _ _ _ Hd) as [_ [Hn He]].
    split; [exact Hs|]. split; [now apply nonempty_true | exact He].
  - destruct (search_uploads_exists _ _ _ _ Hq) as [He Hn].
    split; [exact Hs|]. split; [now apply nonempty_true | exact He].
Qed.

Lemma fetcher_resolves_existing_witness :
  Scenario.temp_mp4 <> ""
  /\ Fs.existsSync (fs_at_settle Scenario.download_ok Scenario.disk) Scenario.temp_mp4 = true.
Proof.
  exact (proj2 (fetcher_resolves_existing Scenario.uploads
                  (tempMuxedPathBase_of Scenario.uploads Scenario.now)
                  Scenario.download_ok Scenario.disk Scenario.temp_mp4 eq_refl)).
Defined.

(** Both ways give a path that starts with the temporary base of the
    request. *)
Lemma resolved_under_base (uploadsDir : string) (ts : N) (tr : list event)
  (fs : filesystem) (p : string) :
  fst (ytdlp_run uploadsDir (tempMuxedPathBase_of uploadsDir ts) tr fetcher_init fs)
  = Resolved p ->
  Str.startsWith p (tempMuxedPathBase_of uploadsDir ts) = true.
Proof.
  intros H. destruct (ytdlp_resolved_cases _ _ _ _ _ H) as [_ [Hd|Hq]].
  - destruct (detected_exists_some _ _ _ Hd) as [Hp _].
    destruct (detected_origin _ _ _ _ Hp) as [H0|[c [cap [_ [_ [_ Hs]]]]]];
      [discriminate H0 | exact Hs].
  - destruct (search_uploads_shape _ _ _ _ Hq) as [f [Hp Hf]].
    rewrite basename_tempMuxedPathBase in Hf.
    destruct (prefix_split _ _ Hf) as [r Hr]. subst p f.
    unfold Str.startsWith, tempMuxedPathBase_of, Path.join.
    rewrite !prefix_cancel. apply prefix_append.
Qed.

Lemma base_not_prefix_of_final (uploadsDir : string) (ts : N) (suffix : string) :
  Str.startsWith (finalOutputPath_of uploadsDir ts ++ suffix)
                 (tempMuxedPathBase_of uploadsDir ts) = false.
Proof.
  unfold Str.startsWith, finalOutputPath_of, tempMuxedPathBase_of, Path.join.
  rewrite !append_assoc, prefix_cancel. reflexivity.
Qed.

(** X2. Orchestrator, intermediate path.  Whatever the download of a
    request resolves to, by detection or by the directory search, starts
    with the temporary base of that request,
    [uploads/temp-muxed-<timestamp>]; so it is never the final file of the
    request and never its [.part] fragment. *)
Theorem intermediate_under_temp_base (uploadsDir : string) (ts : N)
  (tr : list event) (fs : filesystem) (p : string) :
  fst (ytdlp_run uploadsDir (tempMuxedPathBase_of uploadsDir ts) tr fetcher_init fs)
  = Resolved p ->
  (exists rest, p = uploadsDir ++ "/temp-muxed-" ++ Str.of_N ts ++ rest)
  /\ p <> finalOutputPath_of uploadsDir ts
  /\ p <> finalOutputPath_of uploadsDir ts ++ ".part".
Proof.
  intros H. pose proof (resolved_under_base _ _ _ _ _ H) as Hs.
  split; [|split].
  - destruct (prefix_split _ _ Hs) as [r Hr]. exists r. rewrite Hr.
    unfold tempMuxedPathBase_of, Path.join. now rewrite !append_assoc.
  - intros E. subst p.
    pose proof (base_not_prefix_of_final uploadsDir ts "") as N.
    rewrite append_empty_r in N. congruence.
  - intros E. subst p.
    pose proof (base_not_prefix_of_final uploadsDir ts ".part") as N. congruence.
Qed.

Lemma intermediate_under_temp_base_witness :
  (exists rest, Scenario.temp_mp4
                = Scenario.uploads ++ "/temp-muxed-" ++ Str.of_N Scenario.now ++ rest)
  /\ Scenario.temp_mp4 <> finalOutputPath_of Scenario.uploads Scenario.now
  /\ Scenario.temp_mp4 <> finalOutputPath_of Scenario.uploads Scenario.now ++ ".part".
Proof.
  exact (intermediate_under_temp_base Scenario.uploads Scenario.now
           Scenario.download_ok Scenario.disk Scenario.temp_mp4 eq_refl).
Defined.

(** ** The handler, further *)

(** What the [finally] block adds to the log: nothing when the handler
    never gets there, else unlink attempts and the end of the cleanup. *)
Lemma handle_log_tail (uploadsDir : string) (ts : N) (req : request)
  (y f : list event) (fs0 : filesystem) :
  exists rest,
    log (snd (handle uploadsDir ts req y f fs0))
    = (log (snd (clip_try_catch uploadsDir ts req y f (mkWorld fs0 None []))) ++ rest)%list
    /\ (fst (handle uploadsDir ts req y f fs0) = Never -> rest = [])
    /\ (forall a, In a rest -> is_unlink a = true \/ a = CleanupFinished).
Proof.
  rewrite handle_eq.
  destruct (clip_try_catch _ _ _ _ _ _) as [c w].
  destruct (cleanup_log (finalOutputPath_of uploadsDir ts) w) as [l [L [Hu _]]].
  assert (T : forall a, In a (l ++ [CleanupFinished]) ->
                        is_unlink a = true \/ a = CleanupFinished).
  { intros a Ha. apply in_app_or in Ha. destruct Ha as [Ha|[Ha|[]]]; [left | now right].
    rewrite forallb_forall in Hu. now apply Hu. }
  destruct c as [a|e|]; cbn [fst snd].
  - exists (l ++ [CleanupFinished])%list. split; [exact L|]. split; [discriminate | exact T].
  - exists (l ++ [CleanupFinished])%list. split; [exact L|]. split; [discriminate | exact T].
  - exists []. rewrite app_nil_r. split; [reflexivity|]. split; [reflexivity | intros a []].
Qed.

Lemma try_catch_temp_under_base (uploadsDir : string) (ts : N) (req : request)
  (y f : list event) (fs0 : filesystem) (p : string) :
  tempMuxedPath (snd (clip_try_catch uploadsDir ts req y f (mkWorld fs0 None []))) = Some p ->
  Str.startsWith p (tempMuxedPathBase_of uploadsDir ts) = true.
Proof.
  rewrite clip_try_catch_eq.
  destruct (truthy (url req)) as [u|]; [|discriminate].
  destruct (truthy (startTime req)) as [s|]; [|discriminate].
  destruct (truthy (endTime req)) as [e|]; [|discriminate].
  cbv zeta.
  destruct (ytdlp_run _ _ y fetcher_init fs0) as [[|q|m] fs1] eqn:Ey; try discriminate.
  assert (Hq : Str.startsWith q (tempMuxedPathBase_of uploadsDir ts) = true).
  { apply (resolved_under_base uploadsDir ts y fs0). now rewrite Ey. }
  destruct (ffmpeg_run _ f "" fs1) as [[|[]|m] fs2]; simpl; intros H; inversion H; now subst.
Qed.

(** The [finally] block leaves the entry at [finalOutputPath] alone. *)
Lemma handle_final (uploadsDir : string) (ts : N) (req : request)
  (y f : list event) (fs0 : filesystem) :
  Fs.lookup (finalOutputPath_of uploadsDir ts)
    (entries (fs (snd (handle uploadsDir ts req y f fs0))))
  = Fs.lookup (finalOutputPath_of uploadsDir ts)
      (entries (fs (snd (clip_try_catch uploadsDir ts req y f (mkWorld fs0 None []))))).
Proof.
  pose proof (try_catch_temp_under_base uploadsDir ts req y f fs0) as T.
  rewrite handle_eq.
  destruct (clip_try_catch _ _ _ _ _ _) as [c w]. cbn [snd] in T.
  set (final := finalOutputPath_of uploadsDir ts).
  assert (K : Fs.lookup final (entries (fs (snd (cleanup final w))))
              = Fs.lookup final (entries (fs w))).
  { rewrite cleanup_eq. cbv zeta. cbn [snd fs].
    destruct (fold_unlink_lookup (cleanup_targets (fs w) (tempMuxedPath w) final) w final)
      as [H|[Hin _]]; [exact H|].
    apply in_cleanup_targets in Hin. destruct Hin as [[Ht _]|[Hp _]].
    - apply T in Ht.
      pose proof (base_not_prefix_of_final uploadsDir ts "") as N.
      rewrite append_empty_r in N. fold final in N. congruence.
    - symmetry in Hp. apply append_not_self in Hp; [contradiction | discriminate]. }
  destruct c as [a|e|]; cbn [snd]; [exact K | exact K | reflexivity].
Qed.

Lemma ffmpeg_run_fs (final : string) (tr : list event) (err : string) (fs : filesystem) :
  snd (ffmpeg_run final tr err fs) = fs_at_settle tr fs.
Proof. now rewrite ffmpeg_run_settle. Qed.

Lemma ffmpeg_resolved_nonempty (final : string) (tr : list event) (fs : filesystem) :
  fst (ffmpeg_run final tr "" fs) = Resolved tt ->
  final_nonempty (fs_at_settle tr fs) final = true.
Proof.
  rewrite ffmpeg_run_settle. cbn [fst].
  destruct (settle tr) as [[code|m]|]; try discriminate.
  unfold ffmpeg_on_close. destruct (code_is_zero code); [|discriminate].
  now destruct (final_nonempty _ _).
Qed.

(** X3. Orchestrator, chaining.  The transcode process is spawned exactly
    when no field is missing and the promise of the download was
    fulfilled; its input is then the path the download resolved to and its
    output the final path of the request. *)
Theorem remux_spawned_iff (uploadsDir : string) (ts : N) (req : request)
  (y f : list event) (fs0 : filesystem) (args : list string) :
  In (Spawn "ffmpeg" args) (log (snd (handle uploadsDir ts req y f fs0))) <->
  missing_field req = false
  /\ exists p,
       fst (ytdlp_run uploadsDir (tempMuxedPathBase_of uploadsDir ts) y fetcher_init fs0)
       = Resolved p
       /\ args = ["-i"; p; "-c:v"; "copy"; "-c:a"; "copy"; "-y";
                  finalOutputPath_of uploadsDir ts].
Proof.
  destruct (handle_log_tail uploadsDir ts req y f fs0) as [rest [L [_ T]]].
  rewrite L, in_app_iff.
  assert (R : ~ In (Spawn "ffmpeg" args) rest).
  { intros H. destruct (T _ H) as [H1|H1]; discriminate. }
  rewrite clip_try_catch_eq. unfold missing_field.
  destruct (truthy (url req)) as [u|];
    [destruct (truthy (startTime req)) as [s|];
     [destruct (truthy (endTime req)) as [e|]|]|];
    try (split; [intros [[H|[]]|H]; [discriminate | contradiction]
                | intros [H _]; discriminate]).
  cbv zeta.
  destruct (ytdlp_run _ _ y fetcher_init fs0) as [[|p|m] fs1]; cbn [fst snd log].
  - split.
    + intros [[H|[]]|H]; [discriminate | contradiction].
    + intros [_ [p [H _]]]. discriminate.
  - assert (S : In (Spawn "ffmpeg" args)
                   [Spawn "yt-dlp"
                      (ytdlp_args u (tempMuxedPathBase_of uploadsDir ts) s e);
                    Spawn "ffmpeg" (ffmpeg_args p (finalOutputPath_of uploadsDir ts))]
                <-> args = ffmpeg_args p (finalOutputPath_of uploadsDir ts)).
    { simpl. split.
      - intros [H|[H|[]]]; [discriminate | now inversion H].
      - intros H. right. left. now rewrite H. }
    destruct (ffmpeg_run _ f "" fs1) as [[|[]|m] fs2]; cbn [snd log];
      (split;
       [ intros [H|H]; [|contradiction];
         split; [reflexivity|]; exists p; split; [reflexivity|];
         apply S; simpl in H |- *; intuition discriminate
       | intros [_ [q [Hq Ha]]]; inversion Hq; subst q; left;
         simpl; right; left; now rewrite Ha ]).
  - split.
    + intros [[H|[H|[]]]|H]; [discriminate | discriminate | contradiction].
    + intros [_ [p [H _]]]. discriminate.
Qed.

(** The file system the [try] and [catch] blocks leave after a download
    that succeeded: what the two processes made of it. *)
Lemma try_catch_fs_resolved (uploadsDir : string) (ts : N) (req : request)
  (y f : list event) (fs0 : filesystem) (p : string) :
  missing_field req = false ->
  fst (ytdlp_run uploadsDir (tempMuxedPathBase_of uploadsDir ts) y fetcher_init fs0)
  = Resolved p ->
  fs (snd (clip_try_catch uploadsDir ts req y f (mkWorld fs0 None [])))
  = fs_at_settle f (fs_at_settle y fs0).
Proof.
  intros Hm Hy. destruct (missing_field_false req Hm) as [u [s [e [Hu [Hs He]]]]].
  rewrite clip_try_catch_eq, Hu, Hs, He. cbv zeta.
  pose proof (ytdlp_run_fs uploadsDir (tempMuxedPathBase_of uploadsDir ts) y fetcher_init fs0)
    as Hf.
  destruct (ytdlp_run _ _ y fetcher_init fs0) as [pr fs1]. cbn [fst snd] in *.
  subst pr fs1.
  pose proof (ffmpeg_run_fs (finalOutputPath_of uploadsDir ts) f "" (fs_at_settle y fs0)) as Hg.
  destruct (ffmpeg_run _ f "" _) as [[|[]|m] fs2]; cbn [snd fs] in *; exact Hg.
Qed.

(** X4. Orchestrator, success.  When the handler answers with status 200,
    the body names the final path of the request, and when the handler
    returns there is an entry at that path whose size is greater than
    zero: the cleanup has not removed it. *)
Theorem success_means_file (uploadsDir : string) (ts : N) (req : request)
  (y f : list event) (fs0 : filesystem) (payload : body) :
  In (200%N, payload) (responses (log (snd (handle uploadsDir ts req y f fs0)))) ->
  payload = SuccessBody (finalOutputPath_of uploadsDir ts)
                        "Video section processed successfully"
  /\ fst (handle uploadsDir ts req y f fs0) = Normal tt
  /\ exists n,
       Fs.lookup (finalOutputPath_of uploadsDir ts)
         (entries (fs (snd (handle uploadsDir ts req y f fs0)))) = Some n
       /\ (0 < node_size n)%N.
Proof.
  destruct (handle_log uploadsDir ts req y f fs0) as [rest [L R]].
  rewrite L, responses_app, R, app_nil_r, handle_final, handle_eq. clear L R rest.
  rewrite clip_try_catch_eq.
  destruct (truthy (url req)) as [u|];
    [destruct (truthy (startTime req)) as [s|];
     [destruct (truthy (endTime req)) as [e|]|]|];
    try (simpl; intros [H|[]]; discriminate).
  cbv zeta.
  destruct (ytdlp_run _ _ y fetcher_init fs0) as [[|p|m] fs1]; cbn [snd log].
  - intros [].
  - pose proof (ffmpeg_resolved_nonempty (finalOutputPath_of uploadsDir ts) f fs1) as Hn.
    pose proof (ffmpeg_run_fs (finalOutputPath_of uploadsDir ts) f "" fs1) as Hf.
    destruct (ffmpeg_run _ f "" fs1) as [[|[]|m] fs2]; cbn [fst snd log fs] in *.
    + intros [].
    + simpl. intros [H|[]]. inversion H. split; [reflexivity|]. split; [reflexivity|].
      subst fs2. apply final_nonempty_spec. now apply Hn.
    + simpl. intros [H|[]]. discriminate.
  - simpl. intros [H|[]]. discriminate.
Qed.

Lemma success_means_file_witness :
  exists n,
    Fs.lookup (finalOutputPath_of Scenario.uploads Scenario.now)
      (entries (fs (snd (handle Scenario.uploads Scenario.now Scenario.good_request
                           Scenario.download_ok Scenario.remux_ok Scenario.disk))))
    = Some n
    /\ (0 < node_size n)%N.
Proof.
  refine (proj2 (proj2 (success_means_file Scenario.uploads Scenario.now
                          Scenario.good_request Scenario.download_ok Scenario.remux_ok
                          Scenario.disk
                          (SuccessBody Scenario.clip_mp4 "Video section processed successfully")
                          _))).
  vm_compute. left. reflexivity.
Defined.

(** X5. Cleanup and the final path.  After a download that succeeded, the
    entry at [finalOutputPath] when the handler stops is the one the
    transcode process left there, whether the remux was taken as a success
    or as a failure, or never finished: the handler never removes or
    changes the final file, so what a failed remux wrote stays on disk. *)
Theorem final_path_left_as_is (uploadsDir : string) (ts : N) (req : request)
  (y f : list event) (fs0 : filesystem) (p : string) :
  missing_field req = false ->
  fst (ytdlp_run uploadsDir (tempMuxedPathBase_of uploadsDir ts) y fetcher_init fs0)
  = Resolved p ->
  Fs.lookup (finalOutputPath_of uploadsDir ts)
    (entries (fs (snd (handle uploadsDir ts req y f fs0))))
  = Fs.lookup (finalOutputPath_of uploadsDir ts)
      (entries (fs_at_settle f (fs_at_settle y fs0))).
Proof.
  intros Hm Hy. rewrite handle_final.
  now rewrite (try_catch_fs_resolved uploadsDir ts req y f fs0 p Hm Hy).
Qed.

Lemma final_path_left_as_is_witness :
  responses (log (snd (handle Scenario.uploads Scenario.now Scenario.good_request
                         Scenario.download_ok Scenario2.remux_partial Scenario.disk)))
  = [(500%N, ErrorBody "Failed to process video section"
               (Some "FFmpeg remux failed with code 1. Stderr: Broken pipe"))]
  /\ Fs.lookup Scenario.clip_mp4
       (entries (fs (snd (handle Scenario.uploads Scenario.now Scenario.good_request
                            Scenario.download_ok Scenario2.remux_partial Scenario.disk))))
     = Some (File 12).
Proof.
  split; [vm_compute; reflexivity|].
  exact (final_path_left_as_is Scenario.uploads Scenario.now Scenario.good_request
           Scenario.download_ok Scenario2.remux_partial Scenario.disk Scenario.temp_mp4
           eq_refl eq_refl).
Defined.

(** X6. No deadline.  The handler never ends exactly when no field is
    missing and it waits for a process that never closes and never fails
    to start: the download, or the remux after a download that succeeded.
    Then no response is ever sent and the cleanup never runs: the log
    holds the spawns and nothing else. *)
Theorem hung_request (uploadsDir : string) (ts : N) (req : request)
  (y f : list event) (fs0 : filesystem) :
  let download :=
    fst (ytdlp_run uploadsDir (tempMuxedPathBase_of uploadsDir ts) y fetcher_init fs0) in
  (fst (handle uploadsDir ts req y f fs0) = Never <->
   missing_field req = false
   /\ (settle y = None \/ ((exists p, download = Resolved p) /\ settle f = None)))
  /\ (fst (handle uploadsDir ts req y f fs0) = Never ->
      responses (log (snd (handle uploadsDir ts req y f fs0))) = []
      /\ forallb is_spawn (log (snd (handle uploadsDir ts req y f fs0))) = true).
Proof.
  intros download. unfold download.
  rewrite handle_eq, clip_try_catch_eq. unfold missing_field.
  destruct (truthy (url req)) as [u|];
    [destruct (truthy (startTime req)) as [s|];
     [destruct (truthy (endTime req)) as [e|]|]|];
    try (split; [split; [discriminate | intros [H _]; discriminate] | discriminate]).
  cbv zeta.
  pose proof (ytdlp_pending uploadsDir (tempMuxedPathBase_of uploadsDir ts) y fs0) as Py.
  destruct (ytdlp_run _ _ y fetcher_init fs0) as [[|p|m] fs1]; cbn [fst snd] in *.
  - split; [|intros _; now split].
    split; [|reflexivity]. intros _. split; [reflexivity|]. left. now apply Py.
  - pose proof (ffmpeg_pending (finalOutputPath_of uploadsDir ts) f fs1) as Pf.
    assert (Ny : settle y <> None).
    { intros H. apply Py in H. discriminate. }
    destruct (ffmpeg_run _ f "" fs1) as [[|[]|m] fs2]; cbn [fst snd] in *.
    + split; [|intros _; now split].
      split; [|reflexivity]. intros _. split; [reflexivity|]. right.
      split; [now exists p | now apply Pf].
    + split; [|discriminate]. split; [discriminate|].
      intros [_ [H|[_ H]]]; [contradiction|]. apply Pf in H. discriminate.
    + split; [|discriminate]. split; [discriminate|].
      intros [_ [H|[_ H]]]; [contradiction|]. apply Pf in H. discriminate.
  - split; [|discriminate]. split; [discriminate|].
    intros [_ [H|[[p H] _]]]; [|discriminate]. apply Py in H. discriminate.
Qed.

Lemma hung_request_witness :
  responses (log (snd (handle Scenario.uploads Scenario.now Scenario.good_request
                         Scenario2.download_hangs Scenario.remux_ok Scenario.disk))) = []
  /\ forallb is_spawn
       (log (snd (handle Scenario.uploads Scenario.now Scenario.good_request
                    Scenario2.download_hangs Scenario.remux_ok Scenario.disk))) = true.
Proof.
  exact (proj2 (hung_request Scenario.uploads Scenario.now Scenario.good_request
                  Scenario2.download_hangs Scenario.remux_ok Scenario.disk) eq_refl).
Defined.

(** ** Failure messages *)

Lemma ytdlp_rejected_prefix (uploadsDir base : string) (tr : list event)
  (fs : filesystem) (m : string) :
  fst (ytdlp_run uploadsDir base tr fetcher_init fs) = Rejected m ->
  Str.startsWith m "yt-dlp (muxed) indicated success, but no output file was found. Stderr: "
  = true
  \/ Str.startsWith m "yt-dlp download (muxed) failed with code " = true
  \/ Str.startsWith m "Failed to start yt-dlp (muxed): " = true.
Proof.
  rewrite ytdlp_run_settle. cbn [fst].
  destruct (settle tr) as [[code|e]|]; try discriminate.
  - unfold ytdlp_on_close. destruct (code_is_zero code).
    + destruct (detected_exists _ _); [discriminate|].
      destruct (search_uploads _ _ _); [discriminate|].
      intros H. inversion H. left. apply prefix_append.
    + intros H. inversion H. right. left. apply prefix_append.
  - intros H. inversion H. right. right. apply prefix_append.
Qed.

Lemma ffmpeg_rejected_prefix (final : string) (tr : list event) (fs : filesystem)
  (m : string) :
  fst (ffmpeg_run final tr "" fs) = Rejected m ->
  Str.startsWith m "FFmpeg remux failed: Output file missing or empty. Stderr: " = true
  \/ Str.startsWith m "FFmpeg remux failed with code " = true
  \/ Str.startsWith m "Failed to start ffmpeg: " = true.
Proof.
  rewrite ffmpeg_run_settle. cbn [fst].
  destruct (settle tr) as [[code|e]|]; try discriminate.
  - unfold ffmpeg_on_close. destruct (code_is_zero code).
    + destruct (final_nonempty _ _); [discriminate|].
      intros H. inversion H. left. apply prefix_append.
    + intros H. inversion H. right. left. apply prefix_append.
  - intros H. inversion H. right. right. apply prefix_append.
Qed.

(** X7. Spawn failures.  When the download process fails to start, the
    handler answers with status 500 and, as details, the text
    [Failed to start yt-dlp (muxed): ] followed by the message of the
    error; when the download succeeded and the transcode process fails to
    start, the details are [Failed to start ffmpeg: ] followed by the
    message.  An exit code that the process reports afterwards changes
    nothing. *)
Theorem spawn_failures_reported (uploadsDir : string) (ts : N) (req : request)
  (y f : list event) (fs0 : filesystem) (e : string) :
  missing_field req = false ->
  let answer := responses (log (snd (handle uploadsDir ts req y f fs0))) in
  (settle y = Some (Errored e) ->
   answer = [(500%N, ErrorBody "Failed to process video section"
                       (Some ("Failed to start yt-dlp (muxed): " ++ e)))])
  /\ (forall p,
        fst (ytdlp_run uploadsDir (tempMuxedPathBase_of uploadsDir ts) y fetcher_init fs0)
        = Resolved p ->
        settle f = Some (Errored e) ->
        answer = [(500%N, ErrorBody "Failed to process video section"
                            (Some ("Failed to start ffmpeg: " ++ e)))]).
Proof.
  intros Hm answer. unfold answer.
  destruct (handle_log uploadsDir ts req y f fs0) as [rest [L R]].
  rewrite L, responses_app, R, app_nil_r. clear L R rest.
  destruct (missing_field_false req Hm) as [u [s [t [Hu [Hs Ht]]]]].
  rewrite clip_try_catch_eq, Hu, Hs, Ht. cbv zeta.
  split.
  - intros Hy. rewrite ytdlp_run_settle, Hy. reflexivity.
  - intros p Hp Hf.
    pose proof (ytdlp_run_fs uploadsDir (tempMuxedPathBase_of uploadsDir ts) y fetcher_init fs0)
      as Hfs.
    destruct (ytdlp_run _ _ y fetcher_init fs0) as [pr fs1]. cbn [fst snd] in *. subst pr.
    rewrite ffmpeg_run_settle, Hf. reflexivity.
Qed.

Lemma spawn_failures_reported_witness :
  responses (log (snd (handle Scenario.uploads Scenario.now Scenario.good_request
                         Scenario2.download_enoent Scenario.remux_ok Scenario.disk)))
  = [(500%N, ErrorBody "Failed to process video section"
               (Some "Failed to start yt-dlp (muxed): spawn yt-dlp ENOENT"))]
  /\ responses (log (snd (handle Scenario.uploads Scenario.now Scenario.good_request
                            Scenario.download_ok Scenario2.remux_enoent Scenario.disk)))
     = [(500%N, ErrorBody "Failed to process video section"
                  (Some "Failed to start ffmpeg: spawn ffmpeg ENOENT"))].
Proof.
  split.
  - exact (proj1 (spawn_failures_reported Scenario.uploads Scenario.now
                    Scenario.good_request Scenario2.download_enoent Scenario.remux_ok
                    Scenario.disk "spawn yt-dlp ENOENT" eq_refl) eq_refl).
  - exact (proj2 (spawn_failures_reported Scenario.uploads Scenario.now
                    Scenario.good_request Scenario.download_ok Scenario2.remux_enoent
                    Scenario.disk "spawn ffmpeg ENOENT" eq_refl)
             Scenario.temp_mp4 eq_refl eq_refl).
Defined.

(** X8. Messages of the listeners.  Every rejection issued by the
    ['close'] and ['error'] listeners of the download process starts with
    one of three fixed texts, which name yt-dlp and the kind of failure;
    every rejection issued by the listeners of the transcode process
    starts with one of three fixed texts, which name ffmpeg and the kind
    of failure.  The guard that follows the download never fires: the
    [try] block after the validation never throws its message, since the
    listeners fulfil the promise of the download with non-empty paths
    only. *)
Theorem listener_rejections_name_the_stage :
  (forall (uploadsDir base : string) (tr : list event) (fs : filesystem) (m : string),
     fst (ytdlp_run uploadsDir base tr fetcher_init fs) = Rejected m ->
     Str.startsWith m
       "yt-dlp (muxed) indicated success, but no output file was found. Stderr: " = true
     \/ Str.startsWith m "yt-dlp download (muxed) failed with code " = true
     \/ Str.startsWith m "Failed to start yt-dlp (muxed): " = true)
  /\ (forall (final : string) (tr : list event) (fs : filesystem) (m : string),
        fst (ffmpeg_run final tr "" fs) = Rejected m ->
        Str.startsWith m
          "FFmpeg remux failed: Output file missing or empty. Stderr: " = true
        \/ Str.startsWith m "FFmpeg remux failed with code " = true
        \/ Str.startsWith m "Failed to start ffmpeg: " = true)
  /\ (forall (uploadsDir base final u s e : string) (y f : list event) (w : world),
        fst (pipeline uploadsDir base final u s e y f w)
        <> Throw "Missing temporary muxed path after download.").
Proof.
  split; [|split].
  - intros uploadsDir base tr fs m. apply ytdlp_rejected_prefix.
  - intros final tr fs m. apply ffmpeg_rejected_prefix.
  - intros uploadsDir base final u s e y f w.
    unfold pipeline, runYtDlpDownload, bind, emit, run_process, set_tempMuxedPath.
    cbn [fs tempMuxedPath log].
    pose proof (ytdlp_rejected_prefix uploadsDir base y (fs w)) as Py.
    pose proof (ytdlp_resolved_nonempty uploadsDir base y fetcher_init (fs w)) as Ny.
    destruct (ytdlp_run uploadsDir base y fetcher_init (fs w)) as [[|p|m] fs1];
      cbn [fst snd await ret throw] in *.
    + discriminate.
    + rewrite (Ny p eq_refl). cbn [negb fs tempMuxedPath log].
      pose proof (ffmpeg_rejected_prefix final f fs1) as Pf.
      destruct (ffmpeg_run final f "" fs1) as [[|[]|m] fs2];
        cbn [fst snd await ret throw] in *; try discriminate.
      intros H. inversion H. subst m.
      destruct (Pf _ eq_refl) as [K|[K|K]]; discriminate K.
    + intros H. inversion H. subst m.
      destruct (Py _ eq_refl) as [K|[K|K]]; discriminate K.
Qed.

Lemma listener_rejections_name_the_stage_witness :
  (Str.startsWith "Failed to start yt-dlp (muxed): spawn yt-dlp ENOENT"
     "yt-dlp (muxed) indicated success, but no output file was found. Stderr: " = true
   \/ Str.startsWith "Failed to start yt-dlp (muxed): spawn yt-dlp ENOENT"
        "yt-dlp download (muxed) failed with code " = true
   \/ Str.startsWith "Failed to start yt-dlp (muxed): spawn yt-dlp ENOENT"
        "Failed to start yt-dlp (muxed): " = true)
  /\ (Str.startsWith "FFmpeg remux failed with code 1. Stderr: Invalid data found"
        "FFmpeg remux failed: Output file missing or empty. Stderr: " = true
      \/ Str.startsWith "FFmpeg remux failed with code 1. Stderr: Invalid data found"
           "FFmpeg remux failed with code " = true
      \/ Str.startsWith "FFmpeg remux failed with code 1. Stderr: Invalid data found"
           "Failed to start ffmpeg: " = true).
Proof.
  split.
  - exact (proj1 listener_rejections_name_the_stage Scenario.uploads
             (tempMuxedPathBase_of Scenario.uploads Scenario.now)
             Scenario2.download_enoent Scenario.disk
             "Failed to start yt-dlp (muxed): spawn yt-dlp ENOENT" eq_refl).
  - exact (proj1 (proj2 listener_rejections_name_the_stage) Scenario.clip_mp4
             Scenario.remux_fails Scenario.disk
             "FFmpeg remux failed with code 1. Stderr: Invalid data found" eq_refl).
Defined.

(** ** The destination pattern *)

Lemma take_line_split (s : string) :
  one_line (Str.take_line s) = true
  /\ exists post, s = Str.take_line s ++ post
                  /\ (post = ""
                      \/ exists c r, post = String c r /\ Str.is_line_terminator c = true).
Proof.
  induction s as [|c s [IH1 [post [IH2 IH3]]]]; simpl.
  - split; [reflexivity|]. exists "". split; [reflexivity | now left].
  - destruct (Str.is_line_terminator c) eqn:E; simpl.
    + split; [reflexivity|]. exists (String c s). split; [reflexivity|].
      right. now exists c, s.
    + rewrite E, IH1. split; [reflexivity|]. exists post.
      split; [now rewrite <- IH2 | exact IH3].
Qed.

Lemma match_destination_step (output : string) :
  match_destination output =
  match
    match Str.strip_prefix destination_literal output with
    | Some rest =>
        match Str.take_line rest with
        | EmptyString => None
        | cap => Some cap
        end
    | None => None
    end
  with
  | Some cap => Some cap
  | None =>
      match output with
      | EmptyString => None
      | String _ r => match_destination r
      end
  end.
Proof. destruct output; reflexivity. Qed.

(** X10. Destination pattern.  What the pattern captures is never empty
    and holds no line break; in the chunk it follows the literal text of
    the pattern and runs to the end of that line. *)
Theorem match_destination_sound (output cap : string) :
  match_destination output = Some cap ->
  cap <> ""
  /\ one_line cap = true
  /\ exists pre post,
       output = pre ++ "[downlaod] Destination: " ++ cap ++ post
       /\ (post = ""
           \/ exists c r, post = String c r /\ Str.is_line_terminator c = true).
Proof.
  induction output as [|c r IH]; rewrite match_destination_step.
  - discriminate.
  - destruct (Str.strip_prefix destination_literal (String c r)) as [rest|] eqn:E.
    + destruct (take_line_split rest) as [L [post [S P]]].
      destruct (Str.take_line rest) as [|d t] eqn:T.
      * intros H. destruct (IH H) as [N [O [pre [post' [Q P']]]]].
        split; [exact N|]. split; [exact O|].
        exists (String c pre), post'. split; [rewrite Q at 1; reflexivity | exact P'].
      * intros H. inversion H. subst cap.
        split; [discriminate|]. split; [exact L|].
        exists "", post. split; [|exact P].
        apply strip_prefix_append in E. rewrite E, S. reflexivity.
    + intros H. destruct (IH H) as [N [O [pre [post' [Q P']]]]].
      split; [exact N|]. split; [exact O|].
      exists (String c pre), post'. split; [rewrite Q at 1; reflexivity | exact P'].
Qed.

Lemma match_destination_sound_witness :
  "/srv/backend/uploads/temp-muxed-1700000000000.mp4" <> ""
  /\ one_line "/srv/backend/uploads/temp-muxed-1700000000000.mp4" = true
  /\ exists pre post,
       "[downlaod] Destination: /srv/backend/uploads/temp-muxed-1700000000000.mp4"
       = pre ++ "[downlaod] Destination: "
             ++ "/srv/backend/uploads/temp-muxed-1700000000000.mp4" ++ post
       /\ (post = ""
           \/ exists c r, post = String c r /\ Str.is_line_terminator c = true).
Proof.
  exact (match_destination_sound
           "[downlaod] Destination: /srv/backend/uploads/temp-muxed-1700000000000.mp4"
           "/srv/backend/uploads/temp-muxed-1700000000000.mp4" eq_refl).
Defined.

Lemma no_bracket_no_match (s : string) :
  mentions "["%char s = false -> match_destination s = None.
Proof.
  induction s as [|c r IH]; [reflexivity|].
  cbn [mentions]. intros H. apply orb_false_iff in H. destruct H as [Hc Hr].
  rewrite match_destination_step. unfold destination_literal.
  cbn [Str.strip_prefix]. rewrite Hc. now apply IH.
Qed.

Lemma no_bracket_skipped (pre s : string) :
  mentions "["%char pre = false ->
  match_destination (pre ++ s) = match_destination s.
Proof.
  induction pre as [|c r IH]; [reflexivity|].
  cbn [mentions]. intros H. apply orb_false_iff in H. destruct H as [Hc Hr].
  cbn [append]. rewrite match_destination_step. unfold destination_literal.
  cbn [Str.strip_prefix]. rewrite Hc. now apply IH.
Qed.

(** X11. Destination pattern, spelling.  The pattern spells its tag
    [downlaod].  A chunk made of any text without an opening bracket, the
    announcement [[download] Destination: ] and a path without an opening
    bracket is not matched, and the listener stores no path for it: with
    announcements of that spelling only the directory search can find the
    file. *)
Theorem download_tag_not_detected (base pre path : string) (st : fetcher) :
  mentions "["%char pre = false ->
  mentions "["%char path = false ->
  match_destination (pre ++ "[download] Destination: " ++ path) = None
  /\ detectedPath (on_stdout base (pre ++ "[download] Destination: " ++ path) st)
     = detectedPath st.
Proof.
  intros Hpre Hpath.
  assert (M : match_destination (pre ++ "[download] Destination: " ++ path) = None).
  { rewrite (no_bracket_skipped pre _ Hpre).
    cbn [append]. rewrite match_destination_step. unfold destination_literal.
    cbn. apply (no_bracket_no_match path Hpath). }
  split; [exact M|]. unfold on_stdout. now rewrite M.
Qed.

Lemma download_tag_not_detected_witness :
  detectedPath
    (fetcher_at_settle (tempMuxedPathBase_of Scenario.uploads Scenario.now)
       [StdoutData ("" ++ "[download] Destination: "
                       ++ "/srv/backend/uploads/temp-muxed-1700000000000.mp4")]
       fetcher_init)
  = None.
Proof.
  exact (proj2 (download_tag_not_detected
                  (tempMuxedPathBase_of Scenario.uploads Scenario.now) ""
                  "/srv/backend/uploads/temp-muxed-1700000000000.mp4" fetcher_init
                  eq_refl eq_refl)).
Defined.

(** ** Several announcements *)

Lemma on_stdout_announced (base output : string) (st : fetcher) :
  detectedPath (on_stdout base output st) =
  match announced base output with
  | Some p => Some p
  | None => detectedPath st
  end.
Proof.
  unfold announced, on_stdout.
  destruct (match_destination output) as [cap|]; [|reflexivity].
  destruct (Str.nonempty cap); [|reflexivity].
  destruct (Str.startsWith (Str.trim cap) base); reflexivity.
Qed.

Lemma detected_fold (base : string) (tr : list event) (st : fetcher) :
  detectedPath (fetcher_at_settle base tr st) =
  fold_left (fun acc chunk =>
               match announced base chunk with
               | Some p => Some p
               | None => acc
               end) (stdout_chunks tr) (detectedPath st).
Proof.
  revert st; induction tr as [|ev tr IH]; intros st; [reflexivity|].
  destruct ev; simpl; rewrite ?IH; try reflexivity.
  now rewrite on_stdout_announced.
Qed.

(** X9. Destination detection, chunk by chunk.  Each chunk of stdout is
    looked at on its own.  The path the listener holds when the process
    closes is the one of the last chunk that announces a path under
    [outputPathBase]: a later announcement replaces an earlier one, and a
    chunk that announces nothing keeps what was stored. *)
Theorem last_announcement_wins (base : string) (tr : list event) :
  detectedPath (fetcher_at_settle base tr fetcher_init)
  = last_announced base (stdout_chunks tr)
  /\ (forall chunks chunk p,
        announced base chunk = Some p ->
        last_announced base (chunks ++ [chunk]) = Some p)
  /\ (forall chunks chunk,
        announced base chunk = None ->
        last_announced base (chunks ++ [chunk]) = last_announced base chunks).
Proof.
  split; [|split].
  - apply detected_fold.
  - intros chunks chunk p H. unfold last_announced.
    rewrite fold_left_app. simpl. now rewrite H.
  - intros chunks chunk H. unfold last_announced.
    rewrite fold_left_app. simpl. now rewrite H.
Qed.

Lemma last_announcement_wins_witness :
  last_announced "/u/temp-muxed-1"
    (["[downlaod] Destination: /u/temp-muxed-1.f137.mp4"]
       ++ ["[downlaod] Destination: /u/temp-muxed-1.f140.m4a"])
  = Some "/u/temp-muxed-1.f140.m4a".
Proof.
  exact (proj1 (proj2 (last_announcement_wins "/u/temp-muxed-1" []))
           ["[downlaod] Destination: /u/temp-muxed-1.f137.mp4"]
           "[downlaod] Destination: /u/temp-muxed-1.f140.m4a"
           "/u/temp-muxed-1.f140.m4a" eq_refl).
Defined.

(** ** Timestamps and names *)

Lemma to_uint_not_nil (n : N) : N.to_uint n <> Decimal.Nil.
Proof.
  destruct n as [|p]; simpl; [discriminate|].
  apply DecimalPos.Unsigned.to_uint_nonnil.
Qed.

Lemma of_N_inj (a b : N) : Str.of_N a = Str.of_N b -> a = b.
Proof.
  unfold Str.of_N. intros H.
  apply (f_equal NilZero.uint_of_string) in H.
  rewrite !NilZero.usu in H by apply to_uint_not_nil.
  inversion H as [E]. now apply DecimalN.Unsigned.to_uint_inj.
Qed.

Lemma append_cancel_l (a x y : string) : a ++ x = a ++ y -> x = y.
Proof.
  induction a as [|c a IH]; simpl; intros H; [exact H|].
  inversion H. now apply IH.
Qed.

Lemma append_cancel_r (x y c : string) : x ++ c = y ++ c -> x = y.
Proof.
  intros H. apply (f_equal Str.rev) in H. rewrite !rev_append in H.
  apply append_cancel_l in H.
  rewrite <- (rev_involutive x), <- (rev_involutive y). now rewrite H.
Qed.

Lemma prefix_same_length (a b r : string) :
  String.prefix a (b ++ r) = true -> String.length a = String.length b -> a = b.
Proof.
  revert b; induction a as [|c a IH]; intros b H L.
  - destruct b; [reflexivity | discriminate L].
  - destruct b as [|d b]; [discriminate L|]. simpl in H.
    destruct (ascii_dec c d) as [E|_]; [|discriminate].
    subst d. f_equal. apply IH; [exact H | now inversion L].
Qed.

(** X12. Names of a request.  Requests with different timestamps have
    different temporary bases and different final paths.  When two
    different timestamps have the same number of digits, no file named
    after one of them is a candidate of the directory search of the
    other. *)
Theorem distinct_timestamps_distinct_names (uploadsDir : string) (a b : N) :
  a <> b ->
  tempMuxedPathBase_of uploadsDir a <> tempMuxedPathBase_of uploadsDir b
  /\ finalOutputPath_of uploadsDir a <> finalOutputPath_of uploadsDir b
  /\ (String.length (Str.of_N a) = String.length (Str.of_N b) ->
      forall ext,
        Str.startsWith ("temp-muxed-" ++ Str.of_N b ++ ext)
                       (Path.basename (tempMuxedPathBase_of uploadsDir a)) = false).
Proof.
  intros Hab. split; [|split].
  - unfold tempMuxedPathBase_of, Path.join. intros H.
    apply append_cancel_l in H. apply (append_cancel_l "/temp-muxed-") in H.
    now apply Hab, of_N_inj.
  - unfold finalOutputPath_of, Path.join. intros H.
    apply append_cancel_l in H. apply (append_cancel_l "/clip-") in H.
    apply append_cancel_r in H. now apply Hab, of_N_inj.
  - intros L ext. rewrite basename_tempMuxedPathBase. unfold Str.startsWith.
    rewrite (prefix_cancel "temp-muxed-").
    destruct (String.prefix (Str.of_N a) (Str.of_N b ++ ext)) eqn:E; [|reflexivity].
    elim Hab. apply of_N_inj. now apply (prefix_same_length _ _ ext).
Qed.

Lemma distinct_timestamps_distinct_names_witness :
  tempMuxedPathBase_of Scenario.uploads 1700000000000
  <> tempMuxedPathBase_of Scenario.uploads 1700000000001
  /\ finalOutputPath_of Scenario.uploads 1700000000000
     <> finalOutputPath_of Scenario.uploads 1700000000001
  /\ Str.startsWith ("temp-muxed-" ++ Str.of_N 1700000000001 ++ ".mp4")
       (Path.basename (tempMuxedPathBase_of Scenario.uploads 1700000000000)) = false.
Proof.
  destruct (distinct_timestamps_distinct_names Scenario.uploads
              1700000000000 1700000000001) as [H1 [H2 H3]].
  - discriminate.
  - split; [exact H1|]. split; [exact H2|]. apply H3. reflexivity.
Defined.

(** X13. Directory search, names without a delimiter.  The search tests
    a name with [startsWith] only: when the digits of the timestamp of one
    request are the beginning of the digits of another, every file named
    after the second is a candidate of the search of the first. *)
Theorem longer_timestamp_is_candidate (uploadsDir : string) (a b : N) (ext : string) :
  Str.startsWith (Str.of_N b) (Str.of_N a) = true ->
  Str.startsWith ("temp-muxed-" ++ Str.of_N b ++ ext)
                 (Path.basename (tempMuxedPathBase_of uploadsDir a)) = true.
Proof.
  intros H. rewrite basename_tempMuxedPathBase. unfold Str.startsWith in *.
  rewrite (prefix_cancel "temp-muxed-").
  destruct (prefix_split _ _ H) as [r Hr]. rewrite Hr, append_assoc.
  apply prefix_append.
Qed.

Lemma longer_timestamp_is_candidate_witness :
  fst (ytdlp_run "/u" (tempMuxedPathBase_of "/u" 17)
         [CloseEvent (Some 0%Z)] fetcher_init
         (mkFs [("/u", Dir 4096); ("/u/temp-muxed-170.mp4", File 5)] []))
  = Resolved "/u/temp-muxed-170.mp4"
  /\ Str.startsWith ("temp-muxed-" ++ Str.of_N 170 ++ ".mp4")
       (Path.basename (tempMuxedPathBase_of "/u" 17)) = true.
Proof.
  split; [vm_compute; reflexivity|].
  exact (longer_timestamp_is_candidate "/u" 17 170 ".mp4" eq_refl).
Defined.

(** ** Start-up *)

Lemma lookup_put (p q : string) (n : node) (l : list (string * node)) :
  Fs.lookup q (Fs.put p n l) = if String.eqb p q then Some n else Fs.lookup q l.
Proof.
  induction l as [|[k m] l IH]; simpl.
  - reflexivity.
  - destruct (String.eqb k p) eqn:Ekp; simpl.
    + apply String.eqb_eq in Ekp. subst k.
      now destruct (String.eqb p q).
    + rewrite IH. destruct (String.eqb k q) eqn:Ekq; [|reflexivity].
      apply String.eqb_eq in Ekq. subst k.
      rewrite String.eqb_sym in Ekp. now rewrite Ekp.
Qed.

Lemma mkdirSync_some (fs fs' : filesystem) (p : string) (size : N) :
  Startup.mkdirSync fs p size = Some fs' ->
  Fs.lookup p (entries fs) = None
  /\ (exists s, Fs.lookup (Startup.dirname p) (entries fs) = Some (Dir s))
  /\ fs' = Fs.write fs p (Dir size).
Proof.
  unfold Startup.mkdirSync.
  destruct (Fs.lookup p (entries fs)); [discriminate|].
  destruct (Fs.lookup (Startup.dirname p) (entries fs)) as [[s|s]|]; try discriminate.
  intros H. inversion H. split; [reflexivity|]. split; [now exists s | reflexivity].
Qed.

(** X14. Start-up.  The check of the uploads directory leaves a file
    system in which the path exists, or throws.  When the path exists
    already, as a directory or as anything else, nothing is changed and
    nothing is thrown; in particular a second run after a first that
    returned changes nothing.  No other path is touched.  A regular file
    in the place of the directory is left there, and every directory
    search of a download then finds nothing.  When the path is absent and
    its parent is not an existing directory, the check throws. *)
Theorem ensure_uploads_spec (uploadsDir : string) (size : N) (fs : filesystem) :
  (Fs.existsSync fs uploadsDir = true ->
   Startup.ensure_uploads uploadsDir size fs = Some fs)
  /\ (forall fs',
        Startup.ensure_uploads uploadsDir size fs = Some fs' ->
        Fs.existsSync fs' uploadsDir = true
        /\ Startup.ensure_uploads uploadsDir size fs' = Some fs'
        /\ (forall q, q <> uploadsDir ->
                      Fs.lookup q (entries fs') = Fs.lookup q (entries fs))
        /\ (forall q n, Fs.lookup q (entries fs) = Some n ->
                        Fs.lookup q (entries fs') = Some n)
        /\ undeletable fs' = undeletable fs)
  /\ (forall s base,
        Fs.lookup uploadsDir (entries fs) = Some (File s) ->
        Startup.ensure_uploads uploadsDir size fs = Some fs
        /\ search_uploads uploadsDir fs base = None)
  /\ (Fs.existsSync fs uploadsDir = false ->
      (forall s, Fs.lookup (Startup.dirname uploadsDir) (entries fs) <> Some (Dir s)) ->
      Startup.ensure_uploads uploadsDir size fs = None).
Proof.
  assert (A : Fs.existsSync fs uploadsDir = true ->
              Startup.ensure_uploads uploadsDir size fs = Some fs).
  { intros H. unfold Startup.ensure_uploads. now rewrite H. }
  split; [exact A|]. split.
  - intros fs' H. unfold Startup.ensure_uploads in H.
    destruct (Fs.existsSync fs uploadsDir) eqn:E; simpl in H.
    + inversion H. subst fs'. repeat split; auto.
    + destruct (mkdirSync_some _ _ _ _ H) as [Hn [_ Hw]]. subst fs'.
      assert (X : Fs.existsSync (Fs.write fs uploadsDir (Dir size)) uploadsDir = true).
      { unfold Fs.existsSync, Fs.write. simpl.
        now rewrite lookup_put, String.eqb_refl. }
      split; [exact X|]. split; [|split; [|split]].
      * unfold Startup.ensure_uploads. now rewrite X.
      * intros q Hq. unfold Fs.write. simpl. rewrite lookup_put.
        destruct (String.eqb uploadsDir q) eqn:Eq; [|reflexivity].
        apply String.eqb_eq in Eq. now elim Hq.
      * intros q n Hq. unfold Fs.write. simpl. rewrite lookup_put.
        destruct (String.eqb uploadsDir q) eqn:Eq; [|exact Hq].
        apply String.eqb_eq in Eq. subst q. congruence.
      * reflexivity.
  - split.
    + intros s base H. split.
      * apply A. unfold Fs.existsSync. now rewrite H.
      * unfold search_uploads, Fs.readdirSync. now rewrite H.
    + intros E P. unfold Startup.ensure_uploads. rewrite E. simpl.
      unfold Startup.mkdirSync. unfold Fs.existsSync in E.
      destruct (Fs.lookup uploadsDir (entries fs)); [discriminate|].
      destruct (Fs.lookup (Startup.dirname uploadsDir) (entries fs)) as [[s|s]|];
        try reflexivity. now elim (P s).
Qed.

Lemma ensure_uploads_spec_witness :
  (Fs.existsSync
     (mkFs [(Scenario2.parent, Dir 4096); (Scenario.uploads, Dir 4096)] [])
     Scenario.uploads = true
   /\ Startup.ensure_uploads Scenario.uploads 4096
        (mkFs [(Scenario2.parent, Dir 4096); (Scenario.uploads, Dir 4096)] [])
      = Some (mkFs [(Scenario2.parent, Dir 4096); (Scenario.uploads, Dir 4096)] []))
  /\ Startup.ensure_uploads Scenario.uploads 4096 (mkFs [] []) = None.
Proof.
  split.
  - destruct (proj1 (proj2 (ensure_uploads_spec Scenario.uploads 4096 Scenario2.bare_disk))
                (mkFs [(Scenario2.parent, Dir 4096); (Scenario.uploads, Dir 4096)] [])
                eq_refl) as [H1 [H2 _]].
    split; [exact H1 | exact H2].
  - refine (proj2 (proj2 (proj2 (ensure_uploads_spec Scenario.uploads 4096 (mkFs [] []))))
              eq_refl _).
    intros s H. discriminate H.
Defined.

(** ** Cleanup after a rejected request *)

Lemma attempted_app (p : string) (l1 l2 : list action) :
  attempted p (l1 ++ l2) <-> attempted p l1 \/ attempted p l2.
Proof.
  unfold attempted. rewrite !in_app_iff. tauto.
Qed.

(** X15. Early return and [finally].  A request rejected for a missing
    field still goes through the cleanup block: the only unlink it can
    attempt is the one of [finalOutputPath + ".part"], attempted exactly
    when that path exists; if that unlink fails or is not attempted the
    file system is unchanged, and if it succeeds the fragment is the only
    thing removed. *)
Theorem rejected_request_still_cleans (uploadsDir : string) (ts : N) (req : request)
  (y f : list event) (fs0 : filesystem) :
  missing_field req = true ->
  let part := finalOutputPath_of uploadsDir ts ++ ".part" in
  let w := snd (handle uploadsDir ts req y f fs0) in
  (forall p, attempted p (log w) <-> p = part /\ Fs.existsSync fs0 part = true)
  /\ (Fs.unlink fs0 part = None -> fs w = fs0)
  /\ (forall fs', Fs.unlink fs0 part = Some fs' -> fs w = fs').
Proof.
  intros Hm part w.
  set (final := finalOutputPath_of uploadsDir ts) in *.
  set (w1 := mkWorld fs0 None [Respond 400 (ErrorBody "URL is required" None)]).
  assert (E : w = snd (cleanup final w1)).
  { unfold w. rewrite handle_eq, clip_try_catch_eq. unfold missing_field in Hm.
    destruct (truthy (url req)); [|reflexivity].
    destruct (truthy (startTime req)); [|reflexivity].
    destruct (truthy (endTime req)); [discriminate | reflexivity]. }
  assert (T : cleanup_targets (fs w1) (tempMuxedPath w1) final
              = if Fs.existsSync fs0 part then [part] else []) by reflexivity.
  split; [|split].
  - intros p. destruct (cleanup_log final w1) as [l [L [_ Ha]]].
    rewrite E, L, !attempted_app, <- (Ha p), in_cleanup_targets.
    cbn [tempMuxedPath fs log w1]. fold part.
    assert (N1 : ~ attempted p [Respond 400 (ErrorBody "URL is required" None)]).
    { intros [[H|[]]|[H|[]]]; discriminate. }
    assert (N2 : ~ attempted p [CleanupFinished]).
    { intros [[H|[]]|[H|[]]]; discriminate. }
    split.
    + intros [H|[[[H _]|[H1 H2]]|H]];
        [contradiction | discriminate | subst p; now split | contradiction].
    + intros [H1 H2]. right. left. right. subst p. now split.
  - intros U. rewrite E, cleanup_eq. cbv zeta. cbn [snd fs]. rewrite T.
    destruct (Fs.existsSync fs0 part); [|reflexivity].
    simpl. unfold unlink_caught, unlinkAsync. cbn [fs w1]. now rewrite U.
  - intros fs' U. rewrite E, cleanup_eq. cbv zeta. cbn [snd fs]. rewrite T.
    assert (X : Fs.existsSync fs0 part = true).
    { unfold Fs.unlink in U. unfold Fs.existsSync.
      destruct (Fs.lookup part (entries fs0)); [reflexivity | discriminate]. }
    rewrite X. simpl. unfold unlink_caught, unlinkAsync. cbn [fs w1]. now rewrite U.
Qed.

Lemma rejected_request_still_cleans_witness :
  fs (snd (handle Scenario.uploads Scenario.now Scenario.no_start_request
             Scenario.download_ok Scenario.remux_ok
             (mkFs [(Scenario.uploads, Dir 4096);
                    ("/srv/backend/uploads/clip-1700000000000.mp4.part", File 7)] [])))
  = mkFs [(Scenario.uploads, Dir 4096)] [].
Proof.
  exact (proj2 (proj2 (rejected_request_still_cleans Scenario.uploads Scenario.now
                         Scenario.no_start_request Scenario.download_ok Scenario.remux_ok
                         (mkFs [(Scenario.uploads, Dir 4096);
                                ("/srv/backend/uploads/clip-1700000000000.mp4.part", File 7)]
                               [])
                         eq_refl))
           (mkFs [(Scenario.uploads, Dir 4096)] []) eq_refl).
Defined.
